(** * Employee scheduling: the assignment workflow, its time arithmetic,
      the settings reader, the schedule sort and the edit route.

    Shallow embedding of
      - the business layer of Assignment2 (assignShift, toMinutes,
        getShiftMinutes),
      - Assignment2/persistence.js (the JSON-file store and readSettings),
      - the business layer of Assignment3 (getScheduleForEmployeeSorted),
      - Assignment3/app.js (the routes on /employees/:id/edit),
      - the MongoDB persistence of Assignment3 (findEmployee,
        getEmployeeShifts, updateEmployee).

    Conventions.
      - A JavaScript string is a [string]: one [ascii] per code unit, so the
        code units covered are 0..255.
      - A JavaScript number is a [jsnum]: NaN, the two infinities, or a finite
        double held as the rational it is.  Number(text) and the product
        round to the nearest double, a tie going to the even significand, and
        to an infinity beyond the largest double.  Sums and differences are
        kept exact: those of the time utility and of assignShift are of
        integers far below 2^53 (an array holds fewer than 2^32 shifts of
        fewer than 1440 minutes each), and a new employee identifier is made
        only from an integer below 2^53.  A number of a JSON file is given
        by the value its literal writes and read as the double JSON.parse
        makes of it.  The two zeros are one value: no operation used below
        tells them apart.
      - Files are read and parsed on every call of the persistence layer; the
        model keeps the parsed contents in a record and passes it explicitly.
        A file that is missing or is not JSON makes the JavaScript throw; such
        runs are outside the model.
      - The records of the files have text members, as their JSDoc types say.

    The file has three parts: the definitions (the embedding, then the
    vocabulary of the statements and sample data), the lemmas, and the
    properties of the specification. *)

From Stdlib Require Import ZArith QArith Qround Bool List Ascii String Lia Lqa.
From Stdlib Require Import Permutation Sorted.
Import ListNotations.

Local Open Scope string_scope.
Local Open Scope Z_scope.

(* ------------------------------------------------------------------ *)
(** ** JavaScript numbers *)

Module JsNum.

Inductive jsnum : Type :=
| NaN
| Inf (negative : bool)
| Fin (q : Q).

Definition num (z : Z) : jsnum := Fin (inject_Z z).

(** Number.isFinite *)
Definition isFinite (n : jsnum) : bool :=
  match n with Fin _ => true | _ => false end.

(** Number.isInteger *)
Definition isInteger (n : jsnum) : bool :=
  match n with
  | Fin q => (Qnum q mod Zpos (Qden q) =? 0)
  | _ => false
  end.

(** [a < b]; any comparison with NaN is false. *)
Definition jslt (a b : jsnum) : bool :=
  match a, b with
  | NaN, _ | _, NaN => false
  | Fin p, Fin q => match (p ?= q)%Q with Lt => true | _ => false end
  | Inf true, Inf true => false
  | Inf true, _ => true
  | _, Inf true => false
  | Inf false, _ => false
  | _, Inf false => true
  end.

Definition jsgt (a b : jsnum) : bool := jslt b a.

(** [a <= b] is [a < b || a == b] with NaN comparing false. *)
Definition jsle (a b : jsnum) : bool :=
  match a, b with
  | NaN, _ | _, NaN => false
  | _, _ => negb (jslt b a)
  end.

Definition jsneg (a : jsnum) : jsnum :=
  match a with
  | NaN => NaN
  | Inf s => Inf (negb s)
  | Fin q => Fin (- q)
  end.

Definition jsadd (a b : jsnum) : jsnum :=
  match a, b with
  | NaN, _ | _, NaN => NaN
  | Fin p, Fin q => Fin (p + q)
  | Inf s, Inf t => if Bool.eqb s t then Inf s else NaN
  | Inf s, Fin _ | Fin _, Inf s => Inf s
  end.

Definition jssub (a b : jsnum) : jsnum := jsadd a (jsneg b).

(** The exponent [e] with [2^e <= a/d < 2^(e+1)], for positive [a] and [d]. *)
Definition binaryExponent (a d : Z) : Z :=
  let e := Z.log2 a - Z.log2 d in
  if d * 2 ^ Z.max 0 e <=? a * 2 ^ Z.max 0 (- e) then e else e - 1.

(** [n/d] to the nearest integer, a tie going to the even one. *)
Definition roundHalfEven (n d : Z) : Z :=
  let q := n / d in
  let r := n mod d in
  if 2 * r <? d then q
  else if d <? 2 * r then q + 1
  else if Z.even q then q else q + 1.

(** The Number value for a rational: the nearest double, a tie going to the
    even significand.  The significand has 53 bits from the exponent -1022
    upwards and fewer below; what reaches 2^1024 is an infinity. *)
Definition roundDouble (x : Q) : jsnum :=
  let q := Qred x in
  let a := Z.abs (Qnum q) in
  let d := Zpos (Qden q) in
  if a =? 0 then Fin 0
  else
    let k := Z.max (binaryExponent a d) (-1022) - 52 in
    let m := roundHalfEven (a * 2 ^ Z.max 0 (- k)) (d * 2 ^ Z.max 0 k) in
    if 2 ^ (1024 + Z.max 0 (- k)) <=? m * 2 ^ Z.max 0 k
    then Inf (Qnum q <? 0)
    else Fin (Qred (Qmake (Z.sgn (Qnum q) * m * 2 ^ Z.max 0 k)
                          (Z.to_pos (2 ^ Z.max 0 (- k))))).

(** A number given by any rational, as the double it is stored as. *)
Definition toDouble (n : jsnum) : jsnum :=
  match n with
  | Fin q => roundDouble q
  | other => other
  end.

Definition jsmul (a b : jsnum) : jsnum :=
  match a, b with
  | NaN, _ | _, NaN => NaN
  | Fin p, Fin q => roundDouble (p * q)
  | Inf s, Inf t => Inf (xorb s t)
  | Inf s, Fin q | Fin q, Inf s =>
      match (q ?= 0)%Q with
      | Eq => NaN
      | Lt => Inf (negb s)
      | Gt => Inf s
      end
  end.

(** Math.floor *)
Definition floor (a : jsnum) : jsnum :=
  match a with
  | Fin q => num (Qfloor q)
  | other => other
  end.

End JsNum.
Export JsNum.

#[global] Arguments jslt : simpl never.
#[global] Arguments jsgt : simpl never.
#[global] Arguments jsle : simpl never.
#[global] Arguments jsadd : simpl never.
#[global] Arguments jssub : simpl never.
#[global] Arguments jsmul : simpl never.

(* ------------------------------------------------------------------ *)
(** ** JavaScript strings: indexing, slice, trim, comparison, Number(text) *)

Module JsString.

(** [s[i] === c] *)
Definition charAtIs (s : string) (i : nat) (c : ascii) : bool :=
  match String.get i s with
  | Some d => Ascii.eqb d c
  | None => false
  end.

(** [s.slice(b, e)] for indices [0 <= b], [0 <= e]. *)
Definition slice (b e : nat) (s : string) : string :=
  String.substring b (e - b) s.

(** White space and line terminators among the code units 0..255:
    TAB, LF, VT, FF, CR, SPACE and NO-BREAK SPACE. *)
Definition isStrWhiteSpace (c : ascii) : bool :=
  let n := nat_of_ascii c in
  (((9 <=? n) && (n <=? 13)) || (n =? 32) || (n =? 160))%nat.

Fixpoint trimStart (s : string) : string :=
  match s with
  | EmptyString => EmptyString
  | String c s' => if isStrWhiteSpace c then trimStart s' else s
  end.

Fixpoint trimEnd (s : string) : string :=
  match s with
  | EmptyString => EmptyString
  | String c s' =>
      match trimEnd s' with
      | EmptyString => if isStrWhiteSpace c then EmptyString
                       else String c EmptyString
      | t => String c t
      end
  end.

(** [s.trim()] *)
Definition trim (s : string) : string := trimEnd (trimStart s).

(** Value of a digit in the given radix (letters in either case). *)
Definition digitVal (radix : Z) (c : ascii) : option Z :=
  let n := Z.of_nat (nat_of_ascii c) in
  let v := if (48 <=? n) && (n <=? 57) then Some (n - 48)
           else if (97 <=? n) && (n <=? 122) then Some (n - 87)
           else if (65 <=? n) && (n <=? 90) then Some (n - 55)
           else None in
  match v with
  | Some d => if d <? radix then Some d else None
  | None => None
  end.

(** Longest run of digits at the front of [s]: its value (on top of [acc]),
    the number of digits read (on top of [n]), and the rest. *)
Fixpoint readDigits (radix : Z) (s : string) (acc : Z) (n : nat)
  : Z * nat * string :=
  match s with
  | EmptyString => (acc, n, s)
  | String c s' =>
      match digitVal radix c with
      | Some d => readDigits radix s' (radix * acc + d) (S n)
      | None => (acc, n, s)
      end
  end.

Definition pow10 (e : Z) : Q :=
  if 0 <=? e then inject_Z (10 ^ e) else / inject_Z (10 ^ (- e)).

(** ExponentPart_opt, up to the end of the text. *)
Definition readExponent (s : string) : option Z :=
  match s with
  | EmptyString => Some 0
  | String c s' =>
      if Ascii.eqb c "e" || Ascii.eqb c "E" then
        let negative :=
          match s' with
          | String d _ => Ascii.eqb d "-"
          | EmptyString => false
          end in
        let s'' :=
          match s' with
          | String d r => if Ascii.eqb d "+" || Ascii.eqb d "-" then r else s'
          | EmptyString => s'
          end in
        match readDigits 10 s'' 0 0 with
        | (_, O, _) => None
        | (v, _, EmptyString) => Some (if negative then - v else v)
        | _ => None
        end
      else None
  end.

(** StrUnsignedDecimalLiteral: the Number value for the number written. *)
Definition readUnsignedDecimal (s : string) : jsnum :=
  if String.eqb s "Infinity" then Inf false
  else
    let '(i, ni, r) := readDigits 10 s 0 0 in
    let '(f, nf, r') :=
      match r with
      | String c t => if Ascii.eqb c "." then readDigits 10 t 0 0
                      else (0, O, r)
      | EmptyString => (0, O, r)
      end in
    match ni, nf with
    | O, O => NaN
    | _, _ =>
        match readExponent r' with
        | Some e =>
            let scale := 10 ^ Z.of_nat nf in
            roundDouble ((inject_Z (i * scale + f) / inject_Z scale) * pow10 e)
        | None => NaN
        end
    end.

(** NonDecimalIntegerLiteral: all of [s] is digits of [radix], at least one;
    the Number value for the integer written. *)
Definition readRadix (radix : Z) (s : string) : jsnum :=
  match readDigits radix s 0 0 with
  | (_, O, _) => NaN
  | (v, _, EmptyString) => roundDouble (inject_Z v)
  | _ => NaN
  end.

(** The radix announced by the letter after a leading 0. *)
Definition radixOf (c : ascii) : option Z :=
  if Ascii.eqb c "x" || Ascii.eqb c "X" then Some 16
  else if Ascii.eqb c "o" || Ascii.eqb c "O" then Some 8
  else if Ascii.eqb c "b" || Ascii.eqb c "B" then Some 2
  else None.

(** StrNumericLiteral: a signed decimal literal, or an unsigned literal in
    radix 16, 8 or 2. *)
Definition readNumeric (s : string) : jsnum :=
  match s with
  | EmptyString => NaN
  | String c r =>
      if Ascii.eqb c "+" then readUnsignedDecimal r
      else if Ascii.eqb c "-" then jsneg (readUnsignedDecimal r)
      else
        match r with
        | String d r' =>
            match (if Ascii.eqb c "0" then radixOf d else None) with
            | Some radix => readRadix radix r'
            | None => readUnsignedDecimal s
            end
        | EmptyString => readUnsignedDecimal s
        end
  end.

(** [Number(text)]: white space around the literal is dropped and text with
    nothing else is 0. *)
Definition StringToNumber (s : string) : jsnum :=
  match trim s with
  | EmptyString => num 0
  | t => readNumeric t
  end.

(** [a > b] on strings: code units compared left to right, a proper prefix
    being the smaller. *)
Fixpoint strlt (a b : string) : bool :=
  match a, b with
  | _, EmptyString => false
  | EmptyString, String _ _ => true
  | String c a', String d b' =>
      let m := nat_of_ascii c in
      let n := nat_of_ascii d in
      if (m <? n)%nat then true
      else if (n <? m)%nat then false
      else strlt a' b'
  end.

Definition strgt (a b : string) : bool := strlt b a.

End JsString.
Export JsString.

(* ------------------------------------------------------------------ *)
(** ** Time utility (Assignment2/business.js) *)

(** [toMinutes(timeText)].  The argument is a string, so the test
    [typeof timeText !== "string"] is false and only the length test of the
    first guard remains. *)
Definition toMinutes (timeText : string) : jsnum :=
  if negb (String.length timeText =? 5)%nat then NaN
  else if negb (charAtIs timeText 2 ":") then NaN
  else
    let hour := StringToNumber (slice 0 2 timeText) in
    let minute := StringToNumber (slice 3 5 timeText) in
    if negb (isInteger hour) || negb (isInteger minute) then NaN
    else if jslt hour (num 0) || jsgt hour (num 23)
            || jslt minute (num 0) || jsgt minute (num 59) then NaN
    else jsadd (jsmul hour (num 60)) minute.

(** [getShiftMinutes(startTime, endTime)] *)
Definition getShiftMinutes (startTime endTime : string) : jsnum :=
  let start := toMinutes startTime in
  let end_ := toMinutes endTime in
  if negb (isFinite start) || negb (isFinite end_) then NaN
  else
    let endAdjusted :=
      if jslt end_ start then jsadd end_ (jsmul (num 24) (num 60))
      else end_ in
    jssub endAdjusted start.


(* ------------------------------------------------------------------ *)
(** ** Vocabulary for the statements about the time utility *)

(** A number in lowest terms. *)
Definition reduced (n : jsnum) : Prop :=
  match n with
  | Fin q => Z.gcd (Qnum q) (Zpos (Qden q)) = 1
  | _ => True
  end.


(** The two numbers toMinutes reads from its text. *)
Definition hourPart (t : string) : jsnum := StringToNumber (slice 0 2 t).
Definition minutePart (t : string) : jsnum := StringToNumber (slice 3 5 t).

(** "The part is an integer" and "the part is outside [lo, hi]". *)
Definition isIntegerPart (n : jsnum) : Prop := exists z, n = num z.
Definition outside (n : jsnum) (lo hi : Z) : Prop :=
  exists z, n = num z /\ (z < lo \/ hi < z).

(** The reasons for which toMinutes gives up. *)
Definition malformed (t : string) : Prop :=
  String.length t <> 5%nat
  \/ String.get 2 t <> Some ":"%char
  \/ ~ isIntegerPart (hourPart t)
  \/ ~ isIntegerPart (minutePart t)
  \/ outside (hourPart t) 0 23
  \/ outside (minutePart t) 0 59.

(** The format "HH:MM" of the specification, read without Number(...): two
    decimal digits, a colon, two decimal digits, the hour at most 23 and the
    minute at most 59.  [clockMinutes] gives the minutes since midnight such
    a text stands for, and nothing for any other text. *)
Definition digitOf (c : ascii) : option Z :=
  let n := Z.of_nat (nat_of_ascii c) in
  if (48 <=? n) && (n <=? 57) then Some (n - 48) else None.

Definition clockMinutes (t : string) : option Z :=
  match t with
  | String a (String b (String sep (String c (String d EmptyString)))) =>
      match digitOf a, digitOf b, digitOf c, digitOf d with
      | Some a', Some b', Some c', Some d' =>
          let hour := 10 * a' + b' in
          let minute := 10 * c' + d' in
          if Ascii.eqb sep ":" && (hour <=? 23) && (minute <=? 59)
          then Some (60 * hour + minute)
          else None
      | _, _, _, _ => None
      end
  | _ => None
  end.

(** The text made of two digits, a colon and two digits. *)
Definition digitChar (d : Z) : ascii := ascii_of_nat (48 + Z.to_nat d).
Definition clockText (a b c d : Z) : string :=
  String (digitChar a) (String (digitChar b) (String ":"
    (String (digitChar c) (String (digitChar d) EmptyString)))).


(* ------------------------------------------------------------------ *)
(** ** JSON values and Number(value) *)

(** The value found under a member of a parsed JSON object.  [VUndefined] is
    the absent member.  A number is given by the value its literal writes;
    JSON.parse has made it the nearest double.  An array or an object is
    carried together with the number that Number(...) converts it to; a
    conversion that throws is outside the model. *)
Inductive jsvalue : Type :=
| VUndefined
| VNull
| VBool (b : bool)
| VNum (n : jsnum)
| VStr (s : string)
| VOther (converted : jsnum).

(** [Number(value)] *)
Definition ToNumber (v : jsvalue) : jsnum :=
  match v with
  | VUndefined => NaN
  | VNull => num 0
  | VBool b => if b then num 1 else num 0
  | VNum n => toDouble n
  | VStr s => StringToNumber s
  | VOther n => toDouble n
  end.

(** [Number(n)] of a value that is a number already. *)
Definition NumberOfNumber (n : jsnum) : jsnum := n.

(* ------------------------------------------------------------------ *)
(** ** The records and the four JSON files (Assignment2/persistence.js) *)

Record employee : Type := mkEmployee
  { employeeId : string; name : string; phone : string }.

Record shift : Type := mkShift
  { shiftId : string; date : string; startTime : string; endTime : string }.

Record assignment : Type := mkAssignment
  { asgEmployeeId : string; asgShiftId : string }.

(** What readSettings returns. *)
Record settings : Type := mkSettings { maxDailyHours : jsnum }.

(** employees.json, shifts.json, assignments.json, and the member
    maxDailyHours of the object in config.json. *)
Record files : Type := mkFiles
  { employeesFile : list employee;
    shiftsFile : list shift;
    assignmentsFile : list assignment;
    configMaxDailyHours : jsvalue }.

(** The calls assignShift makes, in the order it makes them.  The list is
    kept next to the files so that statements about what runs before what
    can be made; it has no counterpart in the JavaScript. *)
Inductive call : Type :=
| CallFindEmployee (empId : string)
| CallFindShift (shftId : string)
| CallFindAssignment (empId shftId : string)
| CallGetConfig
| CallGetShiftMinutes (startTime endTime : string)
| CallGetEmployeeShifts (empId : string)
| CallAddAssignment (empId shftId : string).

Record world : Type := mkWorld { store : files; trace : list call }.

(** Computations over the files. *)
Definition M (A : Type) : Type := world -> A * world.

Definition ret {A : Type} (a : A) : M A := fun w => (a, w).

Definition bind {A B : Type} (c : M A) (k : A -> M B) : M B :=
  fun w => let (a, w') := c w in k a w'.

Notation "x <- c ;; k" := (bind c (fun x => k))
  (at level 61, c at next level, right associativity).
Notation "c ;;; k" := (bind c (fun _ => k))
  (at level 61, right associativity).

Definition readFiles : M files := fun w => (store w, w).

Definition writeAssignments (l : list assignment) : M unit :=
  fun w => (tt, mkWorld (mkFiles (employeesFile (store w)) (shiftsFile (store w))
                                 l (configMaxDailyHours (store w)))
                        (trace w)).

Definition logCall (c : call) : M unit :=
  fun w => (tt, mkWorld (store w) (trace w ++ [c])).

Module Persistence.

(** The search loop of findEmployee: the first record with the identifier. *)
Fixpoint firstEmployee (employees : list employee) (empId : string)
  : option employee :=
  match employees with
  | [] => None
  | e :: rest => if String.eqb (employeeId e) empId then Some e
                 else firstEmployee rest empId
  end.

Fixpoint firstShift (shifts : list shift) (shftId : string) : option shift :=
  match shifts with
  | [] => None
  | s :: rest => if String.eqb (shiftId s) shftId then Some s
                 else firstShift rest shftId
  end.

Fixpoint firstAssignment (assignments : list assignment)
  (empId shftId : string) : option assignment :=
  match assignments with
  | [] => None
  | a :: rest =>
      if String.eqb (asgEmployeeId a) empId && String.eqb (asgShiftId a) shftId
      then Some a
      else firstAssignment rest empId shftId
  end.

(** The join of getEmployeeShifts: the identifiers of the shifts assigned to
    the employee, then the shifts of shifts.json, in file order, whose
    identifier is among them. *)
Definition joinShifts (fs : files) (empId : string) : list shift :=
  let shiftIds :=
    map asgShiftId
        (filter (fun a => String.eqb (asgEmployeeId a) empId)
                (assignmentsFile fs)) in
  filter (fun s => existsb (String.eqb (shiftId s)) shiftIds) (shiftsFile fs).

(** [readSettings()], from the member maxDailyHours of config.json. *)
Definition readSettingsFrom (raw : jsvalue) : settings :=
  let value := ToNumber raw in
  if negb (isFinite value) || jsle value (num 0)
  then mkSettings (num 8)
  else mkSettings value.

Definition findEmployee (empId : string) : M (option employee) :=
  logCall (CallFindEmployee empId) ;;;
  fs <- readFiles ;;
  ret (firstEmployee (employeesFile fs) empId).

Definition findShift (shftId : string) : M (option shift) :=
  logCall (CallFindShift shftId) ;;;
  fs <- readFiles ;;
  ret (firstShift (shiftsFile fs) shftId).

Definition findAssignment (empId shftId : string) : M (option assignment) :=
  logCall (CallFindAssignment empId shftId) ;;;
  fs <- readFiles ;;
  ret (firstAssignment (assignmentsFile fs) empId shftId).

Definition addAssignment (empId shftId : string) : M unit :=
  logCall (CallAddAssignment empId shftId) ;;;
  fs <- readFiles ;;
  writeAssignments (assignmentsFile fs ++ [mkAssignment empId shftId]).

Definition getEmployeeShifts (empId : string) : M (list shift) :=
  logCall (CallGetEmployeeShifts empId) ;;;
  fs <- readFiles ;;
  ret (joinShifts fs empId).

Definition readSettings : M settings :=
  fs <- readFiles ;;
  ret (readSettingsFrom (configMaxDailyHours fs)).

Definition getConfig : M settings :=
  logCall CallGetConfig ;;;
  readSettings.

End Persistence.

(* ------------------------------------------------------------------ *)
(** ** The assignment workflow (Assignment2/business.js) *)

Module Business.

Definition callGetShiftMinutes (startTime endTime : string) : M jsnum :=
  logCall (CallGetShiftMinutes startTime endTime) ;;;
  ret (getShiftMinutes startTime endTime).

(** The loop over [scheduled]: [None] when it leaves assignShift with
    "Invalid shift time format", otherwise the minutes summed. *)
Fixpoint sumScheduled (scheduled : list shift) (day : string)
  (scheduledMinutesForDate : jsnum) : M (option jsnum) :=
  match scheduled with
  | [] => ret (Some scheduledMinutesForDate)
  | s :: rest =>
      if String.eqb (date s) day then
        minutes <- callGetShiftMinutes (startTime s) (endTime s) ;;
        if negb (isFinite minutes) || jsle minutes (num 0) then ret None
        else sumScheduled rest day (jsadd scheduledMinutesForDate minutes)
      else sumScheduled rest day scheduledMinutesForDate
  end.

Definition assignShift (empId shftId : string) : M string :=
  employee <- Persistence.findEmployee empId ;;
  match employee with
  | None => ret "Employee does not exist"
  | Some _ =>
  found <- Persistence.findShift shftId ;;
  match found with
  | None => ret "Shift does not exist"
  | Some shift =>
  assignment <- Persistence.findAssignment empId shftId ;;
  match assignment with
  | Some _ => ret "Employee already assigned to shift"
  | None =>
  config <- Persistence.getConfig ;;
  let maxDailyHours := NumberOfNumber (maxDailyHours config) in
  if negb (isFinite maxDailyHours) || jsle maxDailyHours (num 0)
  then ret "Invalid config: maxDailyHours must be a positive number"
  else
  newShiftMinutes <-
    callGetShiftMinutes (startTime shift) (endTime shift) ;;
  if negb (isFinite newShiftMinutes) || jsle newShiftMinutes (num 0)
  then ret "Invalid shift time format"
  else
  scheduled <- Persistence.getEmployeeShifts empId ;;
  summed <- sumScheduled scheduled (date shift) (num 0) ;;
  match summed with
  | None => ret "Invalid shift time format"
  | Some scheduledMinutesForDate =>
  let maxDailyMinutes := floor (jsmul maxDailyHours (num 60)) in
  if jsgt (jsadd scheduledMinutesForDate newShiftMinutes) maxDailyMinutes
  then ret "Cannot assign shift: maxDailyHours limit would be exceeded."
  else
    Persistence.addAssignment empId shftId ;;;
    ret "Ok"
  end end end end.

End Business.

(* ------------------------------------------------------------------ *)
(** ** The workflow in the words of the specification (section 4.2) *)

Module Spec.

Inductive outcome : Type :=
| EmployeeMissing
| ShiftMissing
| AlreadyAssigned
| InvalidConfig
| InvalidShiftTime
| CapExceeded
| Assigned.

Definition message (o : outcome) : string :=
  match o with
  | EmployeeMissing => "Employee does not exist"
  | ShiftMissing => "Shift does not exist"
  | AlreadyAssigned => "Employee already assigned to shift"
  | InvalidConfig => "Invalid config: maxDailyHours must be a positive number"
  | InvalidShiftTime => "Invalid shift time format"
  | CapExceeded => "Cannot assign shift: maxDailyHours limit would be exceeded."
  | Assigned => "Ok"
  end.

Definition failures : list outcome :=
  [EmployeeMissing; ShiftMissing; AlreadyAssigned; InvalidConfig;
   InvalidShiftTime; CapExceeded].

Definition Qltb (a b : Q) : bool :=
  match (a ?= b)%Q with Lt => true | _ => false end.

(** A finite positive number. *)
Definition finitePositive (n : jsnum) : Prop :=
  exists q, n = Fin q /\ (0 < q)%Q.

(** Duration of a shift in minutes (0 when its times are malformed), and
    whether that duration is a valid positive number of minutes. *)
Definition durationOf (s : shift) : Q :=
  match getShiftMinutes (startTime s) (endTime s) with
  | Fin q => q
  | _ => 0%Q
  end.

Definition validDuration (s : shift) : bool :=
  match getShiftMinutes (startTime s) (endTime s) with
  | Fin q => Qltb 0 q
  | _ => false
  end.

Definition employeeExists (fs : files) (empId : string) : bool :=
  existsb (fun e => String.eqb (employeeId e) empId) (employeesFile fs).

Definition shiftNamed (fs : files) (shftId : string) : option shift :=
  find (fun s => String.eqb (shiftId s) shftId) (shiftsFile fs).

Definition pairAssigned (fs : files) (empId shftId : string) : bool :=
  existsb (fun a => String.eqb (asgEmployeeId a) empId
                    && String.eqb (asgShiftId a) shftId)
          (assignmentsFile fs).

(** The shifts assigned to the employee: those of shifts.json, in file
    order, that assignments.json pairs with the employee. *)
Definition assignedShifts (fs : files) (empId : string) : list shift :=
  filter (fun s => pairAssigned fs empId (shiftId s)) (shiftsFile fs).

(** The shifts already assigned to the employee on the given date. *)
Definition sameDayShifts (fs : files) (empId day : string) : list shift :=
  filter (fun s => String.eqb (date s) day) (assignedShifts fs empId).

Definition scheduledMinutes (fs : files) (empId day : string) : Q :=
  fold_right Qplus 0%Q (map durationOf (sameDayShifts fs empId day)).

(** The configured maxDailyHours, as the workflow reads it. *)
Definition configured (fs : files) : jsnum :=
  maxDailyHours (Persistence.readSettingsFrom (configMaxDailyHours fs)).

(** Minutes of the day once the new shift is added to those scheduled. *)
Definition totalWith (fs : files) (empId : string) (sh : shift) : Q :=
  (scheduledMinutes fs empId (date sh) + durationOf sh)%Q.

(** maxDailyHours * 60, the product as JavaScript computes it, and whether a
    number of minutes exceeds it. *)
Definition capMinutes (cap : Q) : jsnum := jsmul (Fin cap) (num 60).

Definition exceedsCap (minutes cap : Q) : bool :=
  jsgt (Fin minutes) (capMinutes cap).

(** The six checks in order; the first that fails decides. *)
Definition workflow (fs : files) (empId shftId : string) : outcome :=
  if negb (employeeExists fs empId) then EmployeeMissing
  else
    match shiftNamed fs shftId with
    | None => ShiftMissing
    | Some sh =>
        if pairAssigned fs empId shftId then AlreadyAssigned
        else
          match configured fs with
          | Fin cap =>
              if negb (Qltb 0 cap) then InvalidConfig
              else if negb (validDuration sh) then InvalidShiftTime
              else if negb (forallb validDuration
                                    (sameDayShifts fs empId (date sh)))
              then InvalidShiftTime
              else if exceedsCap (totalWith fs empId sh) cap
              then CapExceeded
              else Assigned
          | _ => InvalidConfig
          end
    end.

(** The files after the pair has been appended to assignments.json. *)
Definition withAssignment (fs : files) (empId shftId : string) : files :=
  mkFiles (employeesFile fs) (shiftsFile fs)
          (assignmentsFile fs ++ [mkAssignment empId shftId])
          (configMaxDailyHours fs).

(** The files after a call, as the outcome decides. *)
Definition storeAfter (fs : files) (empId shftId : string) : files :=
  match workflow fs empId shftId with
  | Assigned => withAssignment fs empId shftId
  | _ => fs
  end.

(** Every (employeeId, shiftId) pair appears at most once. *)
Definition pairOf (a : assignment) : string * string :=
  (asgEmployeeId a, asgShiftId a).

Definition pairsUnique (fs : files) : Prop :=
  NoDup (map pairOf (assignmentsFile fs)).

(** Whether a call is a duration computation, and whether it writes. *)
Definition isDurationCall (c : call) : bool :=
  match c with CallGetShiftMinutes _ _ => true | _ => false end.

Definition isWriteCall (c : call) : bool :=
  match c with CallAddAssignment _ _ => true | _ => false end.

End Spec.

(* ------------------------------------------------------------------ *)
(** ** The web application (Assignment3) *)

Module Web.

(** The collections of the database, in natural order. *)
Record database : Type := mkDatabase
  { employees : list employee;
    shifts : list shift;
    assignments : list assignment }.

(** persistence.findEmployee: findOne by employeeId. *)
Definition findEmployee (db : database) (empId : string) : option employee :=
  Persistence.firstEmployee (employees db) empId.

(** persistence.getEmployeeShifts: the assignments of the employee, then the
    shifts whose identifier is among theirs. *)
Definition getEmployeeShifts (db : database) (empId : string) : list shift :=
  let shiftIds :=
    map asgShiftId
        (filter (fun a => String.eqb (asgEmployeeId a) empId)
                (assignments db)) in
  if (List.length shiftIds =? 0)%nat then []
  else filter (fun s => existsb (String.eqb (shiftId s)) shiftIds) (shifts db).

(** The shifts of the employee, in the words of the specification: the
    shifts of the collection, in natural order, that some assignment pairs
    with the employee. *)
Definition shiftsOf (db : database) (empId : string) : list shift :=
  filter (fun s => existsb (fun a => String.eqb (asgEmployeeId a) empId
                                     && String.eqb (asgShiftId a) (shiftId s))
                           (assignments db))
         (shifts db).

(** persistence.updateEmployee: updateOne sets name and phone of the first
    document with the identifier, and changes nothing without one. *)
Fixpoint updateOne (docs : list employee) (empId name phone : string)
  : list employee :=
  match docs with
  | [] => []
  | e :: rest =>
      if String.eqb (employeeId e) empId
      then mkEmployee (employeeId e) name phone :: rest
      else e :: updateOne rest empId name phone
  end.

Definition updateEmployee (db : database) (empId name phone : string)
  : database :=
  mkDatabase (updateOne (employees db) empId name phone)
             (shifts db) (assignments db).

(** *** getScheduleForEmployeeSorted (Assignment3/business.js) *)

Definition sortKey (s : shift) : string :=
  (date s ++ " " ++ startTime s)%string.

(** [arr[i] = x] for an index inside the array. *)
Fixpoint setAt {A : Type} (i : nat) (x : A) (arr : list A) : list A :=
  match arr, i with
  | [], _ => []
  | _ :: rest, O => x :: rest
  | y :: rest, S j => y :: setAt j x rest
  end.

(** Body of the inner loop at index [j]; both indices are inside the array
    for every [j] the loop reaches. *)
Definition compareSwap (shifts : list shift) (j : nat) : list shift :=
  match nth_error shifts j, nth_error shifts (j + 1) with
  | Some a, Some b =>
      let aKey := sortKey a in
      let bKey := sortKey b in
      if strgt aKey bKey
      then let tmp := a in setAt (j + 1) tmp (setAt j b shifts)
      else shifts
  | _, _ => shifts
  end.

(** [for (j = 0; j < shifts.length - 1; j++)] *)
Definition innerLoop (shifts : list shift) : list shift :=
  fold_left compareSwap (seq 0 (List.length shifts - 1)) shifts.

(** [for (i = 0; i < shifts.length; i++)] *)
Definition bubbleSort (shifts : list shift) : list shift :=
  fold_left (fun arr _ => innerLoop arr) (seq 0 (List.length shifts)) shifts.

Definition getScheduleForEmployeeSorted (db : database) (empId : string)
  : list shift :=
  bubbleSort (getEmployeeShifts db empId).

(** *** The routes of Assignment3/app.js on /employees/:id/edit *)

(** A member of the form-encoded body: absent, one text, or several values
    under the same name. *)
Inductive field : Type :=
| FAbsent
| FText (s : string)
| FList (items : list string).

Inductive response : Type :=
| Send (status : nat) (body : string)
| RedirectTo (status : nat) (location : string)
| Render (status : nat) (view : string) (e : employee).

(** [typeof x !== "string"] replaces the value by the empty text. *)
Definition textOf (f : field) : string :=
  match f with FText s => s | _ => EmptyString end.

Definition isDigit (c : ascii) : bool :=
  let n := nat_of_ascii c in ((48 <=? n) && (n <=? 57))%nat.

(** [n] digits at the front of [s], then [k] on the rest. *)
Fixpoint digitsThen (n : nat) (s : string) (k : string -> bool) : bool :=
  match n with
  | O => k s
  | S n' =>
      match s with
      | String c rest => isDigit c && digitsThen n' rest k
      | EmptyString => false
      end
  end.

(** [/^[0-9]{4}-[0-9]{4}$/.test(phone)] *)
Definition phonePattern (phone : string) : bool :=
  digitsThen 4 phone (fun rest =>
    match rest with
    | String c rest' =>
        Ascii.eqb c "-" && digitsThen 4 rest' (fun e => String.eqb e EmptyString)
    | EmptyString => false
    end).

(** GET /employees/:id/edit *)
Definition getEdit (db : database) (empId : string) : response :=
  match findEmployee db empId with
  | None => Send 404 "Employee not found"
  | Some employee => Render 200 "editEmployee" employee
  end.

(** POST /employees/:id/edit *)
Definition postEdit (db : database) (empId : string) (bodyName bodyPhone : field)
  : response * database :=
  let name := trim (textOf bodyName) in
  let phone := trim (textOf bodyPhone) in
  if (String.length name =? 0)%nat
  then (Send 200 "Validation failed: Name must be non-empty", db)
  else
    let phoneOk := phonePattern phone in
    if negb phoneOk
    then (Send 200 "Validation failed: Phone must be 4 digits, a dash, then 4 digits", db)
    else (RedirectTo 302 "/", updateEmployee db empId name phone).

(** *** One pass of the sort, by recursion on the list *)

(** [bubble a rest]: the element carried so far against the rest. *)
Fixpoint bubble (a : shift) (rest : list shift) : list shift :=
  match rest with
  | [] => [a]
  | b :: rest' =>
      if strgt (sortKey a) (sortKey b) then b :: bubble a rest'
      else a :: bubble b rest'
  end.

Definition pass (l : list shift) : list shift :=
  match l with
  | [] => []
  | a :: rest => bubble a rest
  end.

(** The order of the keys. *)
Definition keyLe (a b : shift) : Prop := strgt (sortKey a) (sortKey b) = false.

(** Date first, start time second. *)
Definition dateThenStart (a b : shift) : Prop :=
  strlt (date a) (date b) = true
  \/ (date a = date b /\ strgt (startTime a) (startTime b) = false).

(** After [k] passes over an array of [n] elements: a front of at most
    [n - k] elements, then a sorted tail that dominates the front. *)
Definition settled (n k : nat) (l : list shift) : Prop :=
  exists xs sfx,
    l = (xs ++ sfx)%list
    /\ (List.length xs <= n - k)%nat
    /\ StronglySorted keyLe sfx
    /\ Forall (fun x => Forall (keyLe x) sfx) xs.

End Web.

(* ------------------------------------------------------------------ *)
(** ** Sample data *)

Module Sample.

(** One employee with a four-hour morning shift already assigned and an
    eight-hour cap. *)
Definition sampleFiles : files :=
  mkFiles
    [mkEmployee "E001" "Ada" "5550-0101"]
    [mkShift "S001" "2025-03-01" "09:00" "13:00";
     mkShift "S002" "2025-03-01" "13:00" "17:00";
     mkShift "S003" "2025-03-01" "22:00" "02:30";
     mkShift "S004" "2025-03-02" "08:00" "08:00"]
    [mkAssignment "E001" "S001"]
    (VNum (num 8)).

Definition sampleWorld : world := mkWorld sampleFiles [].

(** The sample files where the shift already held has a start time that is
    not a time. *)
Definition corruptFiles : files :=
  mkFiles
    [mkEmployee "E001" "Ada" "5550-0101"]
    [mkShift "S001" "2025-03-01" "9am" "13:00";
     mkShift "S002" "2025-03-01" "13:00" "17:00"]
    [mkAssignment "E001" "S001"]
    (VNum (num 8)).

(** Two employees, the first holding four hours, under a cap to be chosen:
    shifts of 80 and of 246 minutes are asked for. *)
Definition fractionalFiles (cap : jsvalue) : files :=
  mkFiles
    [mkEmployee "E001" "Ada" "5550-0101"; mkEmployee "E002" "Bob" "5550-0102"]
    [mkShift "S001" "2025-03-01" "09:00" "13:00";
     mkShift "S002" "2025-03-01" "13:00" "14:20";
     mkShift "S003" "2025-03-01" "09:00" "13:06"]
    [mkAssignment "E001" "S001"]
    cap.

(** The caps 4.1 and 5.333333333333333 as config.json writes them. *)
Definition cap_4_1 : jsvalue := VNum (Fin (41 # 10)).
Definition cap_5_333 : jsvalue :=
  VNum (Fin (5333333333333333 # 1000000000000000)).

(** An assignment left behind for an employee and a shift that are gone. *)
Definition danglingFiles : files :=
  mkFiles [] [] [mkAssignment "E001" "S001"] VUndefined.

Definition sampleDatabase : Web.database :=
  Web.mkDatabase
    [mkEmployee "E001" "Ada" "5550-0101"]
    [mkShift "S002" "2025-03-02" "13:00" "17:00";
     mkShift "S003" "2025-03-01" "22:00" "02:30";
     mkShift "S001" "2025-03-01" "09:00" "13:00"]
    [mkAssignment "E001" "S001"; mkAssignment "E001" "S002";
     mkAssignment "E001" "S003"].

(** Two shifts of one employee, the date of the second written with a blank
    after it. *)
Definition blankDateDatabase : Web.database :=
  Web.mkDatabase
    [mkEmployee "E001" "Ada" "5550-0101"]
    [mkShift "S001" "2025-03-01" "09:00" "13:00";
     mkShift "S002" "2025-03-01 " "08:00" "12:00"]
    [mkAssignment "E001" "S001"; mkAssignment "E001" "S002"].

End Sample.

(* ------------------------------------------------------------------ *)
(** ** Employees of the JSON store (Assignment2/persistence.js and the
       wrappers of the business layer) *)

Module Staff.







Fixpoint repeatChar (n : nat) (c : ascii) : string :=
  match n with
  | O => EmptyString
  | S n' => String c (repeatChar n' c)
  end.


Definition padEnd (n : nat) (s : string) : string :=
  (s ++ repeatChar (n - String.length s) " ")%string.



Definition getAllEmployees (fs : files) : list employee := employeesFile fs.

(** The wrappers of the business layer. *)
Definition listEmployees (fs : files) : list employee := getAllEmployees fs.


Definition getScheduleForEmployee (fs : files) (empId : string) : list shift :=
  Persistence.joinShifts fs empId.

End Staff.

(* ------------------------------------------------------------------ *)
(** ** The console (presentation.js): the employee table *)

Module Console.

(** One line of showEmployeeTable per employee. *)
Definition tableRow (emp : employee) : string :=
  (Staff.padEnd 13 (employeeId emp) ++ Staff.padEnd 20 (name emp) ++ phone emp)%string.

Definition tableHeader : string := "Employee ID  Name                Phone".

(** The lines showEmployeeTable prints. *)
Definition showEmployeeTable (fs : files) : list string :=
  tableHeader
  :: "-----------  ------------------- ---------"
  :: map tableRow (Staff.listEmployees fs).

(** The lines printEmployeeSchedule prints for the identifier typed in. *)
Definition printEmployeeSchedule (fs : files) (empId : string) : list string :=
  EmptyString
  :: "date,start,end"
  :: map (fun d => (date d ++ "," ++ startTime d ++ "," ++ endTime d)%string)
         (Staff.getScheduleForEmployee fs empId).

End Console.

(* ------------------------------------------------------------------ *)
(** ** The employee page of Assignment3 (GET /employees/:id) *)

Module Page.

(** A shift as handed to the view, with the flag the handler adds. *)
Record shiftRow : Type := mkRow { rowShift : shift; isMorning : bool }.

Inductive pageResponse : Type :=
| PageSend (status : nat) (body : string)
| PageRender (status : nat) (view : string) (e : employee)
             (rows : list shiftRow).

(** GET /employees/:id *)
Definition getEmployeePage (db : Web.database) (empId : string) : pageResponse :=
  match Web.findEmployee db empId with
  | None => PageSend 404 "Employee not found"
  | Some employee =>
      let shifts := Web.getScheduleForEmployeeSorted db empId in
      PageRender 200 "employee" employee
        (map (fun s => mkRow s (strlt (startTime s) "12:00")) shifts)
  end.

End Page.

(* ------------------------------------------------------------------ *)
(** ** The cached connection (Assignment3/db.js) *)

Module Db.

(** A client or database handle is known by the connection string it was
    made with.  [events] lists the connections opened and closed. *)
Inductive event : Type :=
| Connected (uri : string)
| ConnectFailed (uri : string)
| Closed (uri : string).

Record connection : Type := mkConnection
  { client : option string; db : option string; events : list event }.

Definition initial : connection := mkConnection None None [].

(** [getDb(uri)]; [connects] tells whether [client.connect()] succeeds, and
    the result is [None] when it throws. *)
Definition getDb (uri : string) (connects : bool) (st : connection)
  : option string * connection :=
  match db st with
  | Some handle => (Some handle, st)
  | None =>
      if connects
      then (Some uri,
            mkConnection (Some uri) (Some uri) (events st ++ [Connected uri]))
      else (None,
            mkConnection (Some uri) None (events st ++ [ConnectFailed uri]))
  end.

(** [closeDb()], with a [client.close()] that succeeds. *)
Definition closeDb (st : connection) : connection :=
  match client st with
  | Some handle => mkConnection None None (events st ++ [Closed handle])
  | None => st
  end.

End Db.

(* ------------------------------------------------------------------ *)
(** ** Vocabulary for the further properties *)

Module Spec2.

(** Every shift of shifts.json has its own identifier. *)
Definition shiftIdsUnique (fs : files) : Prop :=
  NoDup (map shiftId (shiftsFile fs)).

(** No employee is scheduled beyond the configured cap on any date: the
    minutes of the day do not exceed maxDailyHours * 60. *)
Definition capRespected (fs : files) : Prop :=
  forall empId day cap,
    Spec.configured fs = Fin cap ->
    Spec.exceedsCap (Spec.scheduledMinutes fs empId day) cap = false.

(** A code unit that is a decimal digit, and a text of them. *)
Fixpoint allDigits (s : string) : bool :=
  match s with
  | EmptyString => true
  | String c rest => Web.isDigit c && allDigits rest
  end.

Fixpoint allWhiteSpace (s : string) : bool :=
  match s with
  | EmptyString => true
  | String c rest => isStrWhiteSpace c && allWhiteSpace rest
  end.

(** A text made of two digits, a colon and two digits. *)
Definition twoDigitTime (t : string) : Prop :=
  exists a b c d,
    0 <= a <= 9 /\ 0 <= b <= 9 /\ 0 <= c <= 9 /\ 0 <= d <= 9
    /\ t = clockText a b c d.

(** On one date, the earlier of two well-formed start times comes first. *)
Definition sameDayByMinutes (x y : shift) : Prop :=
  date x = date y ->
  twoDigitTime (startTime x) -> twoDigitTime (startTime y) ->
  forall m m',
    toMinutes (startTime x) = num m -> toMinutes (startTime y) = num m' ->
    m <= m'.


(** Four digits, a dash, four digits. *)
Definition phoneShape (phone : string) : Prop :=
  exists a b,
    phone = (a ++ String "-" b)%string
    /\ String.length a = 4%nat /\ String.length b = 4%nat
    /\ allDigits a = true /\ allDigits b = true.

(** The handle is there whenever the database is, and is the same. *)
Definition handleKept (st : Db.connection) : Prop :=
  forall h, Db.db st = Some h -> Db.client st = Some h.

End Spec2.

(* ------------------------------------------------------------------ *)
(** ** More sample data *)

Module Sample2.

(** The sample files before anything is assigned. *)
Definition unassignedFiles : files :=
  mkFiles (employeesFile Sample.sampleFiles) (shiftsFile Sample.sampleFiles)
          [] (configMaxDailyHours Sample.sampleFiles).

End Sample2.
(* ------------------------------------------------------------------ *)
(** ** Arithmetic of integer-valued numbers *)

Section IntegerNumbers.

Lemma num_inj (a b : Z) : num a = num b -> a = b.
Proof. unfold num, inject_Z. congruence. Qed.

Lemma jslt_num (a b : Z) : jslt (num a) (num b) = (a <? b).
Proof.
  unfold jslt, num, Qcompare; simpl.
  rewrite !Z.mul_1_r. unfold Z.ltb. now destruct (a ?= b).
Qed.

Lemma jsle_num (a b : Z) : jsle (num a) (num b) = (a <=? b).
Proof.
  unfold jsle. change (negb (jslt (num b) (num a)) = (a <=? b)).
  rewrite jslt_num. destruct (Z.ltb_spec b a), (Z.leb_spec a b); simpl; lia.
Qed.

Lemma jsadd_num (a b : Z) : jsadd (num a) (num b) = num (a + b).
Proof. unfold jsadd, num, inject_Z, Qplus; simpl. now rewrite !Z.mul_1_r. Qed.

Lemma Qred_inject_Z (v : Z) : Qred (inject_Z v) = inject_Z v.
Proof.
  unfold Qred, inject_Z.
  pose proof (Z.ggcd_gcd v 1) as Hg.
  pose proof (Z.ggcd_correct_divisors v 1) as Hd.
  destruct (Z.ggcd v 1) as (g, (aa, bb)). cbn [fst snd] in *.
  rewrite Z.gcd_1_r in Hg. subst g. destruct Hd as [Ha Hb].
  assert (Ea : aa = v) by lia. assert (Eb : bb = 1) by lia.
  rewrite Ea, Eb. reflexivity.
Qed.

Lemma binaryExponent_integer (a : Z) : 0 < a -> binaryExponent a 1 = Z.log2 a.
Proof.
  intros Ha. unfold binaryExponent. change (Z.log2 1) with 0. rewrite Z.sub_0_r.
  pose proof (Z.log2_nonneg a) as Hn.
  rewrite (Z.max_r 0 (Z.log2 a)), (Z.max_l 0 (- Z.log2 a)) by lia.
  rewrite Z.pow_0_r, Z.mul_1_r, Z.mul_1_l.
  destruct (Z.leb_spec (2 ^ Z.log2 a) a) as [_ | H]; [reflexivity |].
  pose proof (Z.log2_spec a Ha). lia.
Qed.

Lemma roundHalfEven_whole (n : Z) : roundHalfEven n 1 = n.
Proof. unfold roundHalfEven. now rewrite Z.mod_1_r, Z.div_1_r. Qed.

(** Equal rationals round to the same double. *)
Lemma roundDouble_Qeq (x y : Q) : (x == y)%Q -> roundDouble x = roundDouble y.
Proof. intros H. unfold roundDouble. now rewrite (Qred_complete x y H). Qed.

(** An integer below 2^53 is a double. *)
Lemma roundDouble_integer (z : Z) :
  Z.abs z < 2 ^ 53 -> roundDouble (inject_Z z) = num z.
Proof.
  intros Hz. unfold roundDouble. rewrite Qred_inject_Z. cbn [Qnum Qden inject_Z].
  destruct (Z.eqb_spec (Z.abs z) 0) as [H0 | H0].
  { assert (z = 0) by lia. subst z. reflexivity. }
  assert (Ha : 0 < Z.abs z) by lia.
  rewrite (binaryExponent_integer _ Ha).
  assert (He : 0 <= Z.log2 (Z.abs z) < 53).
  { split; [apply Z.log2_nonneg |]. apply Z.log2_lt_pow2; lia. }
  set (e := Z.log2 (Z.abs z)) in *.
  rewrite (Z.max_l e (-1022)) by lia.
  rewrite (Z.max_r 0 (- (e - 52))), (Z.max_l 0 (e - 52)) by lia.
  rewrite Z.pow_0_r, !Z.mul_1_r, roundHalfEven_whole.
  assert (Hp : 0 < 2 ^ (- (e - 52))) by (apply Z.pow_pos_nonneg; lia).
  destruct (Z.leb_spec (2 ^ (1024 + - (e - 52))) (Z.abs z * 2 ^ (- (e - 52))))
    as [Hov | _].
  { exfalso. rewrite Z.pow_add_r in Hov by lia.
    assert (Z.abs z < 2 ^ 1024).
    { apply Z.lt_trans with (2 ^ 53); [exact Hz |].
      apply Z.pow_lt_mono_r; lia. }
    nia. }
  unfold num. f_equal. rewrite <- (Qred_inject_Z z). apply Qred_complete.
  unfold Qeq, inject_Z. cbn [Qnum Qden].
  rewrite Z2Pos.id by exact Hp.
  transitivity (Z.abs z * Z.sgn z * 2 ^ (- (e - 52))); [ring |].
  now rewrite Z.abs_sgn.
Qed.

(** The product of two integers is exact as long as it stays below 2^53. *)
Lemma jsmul_num (a b : Z) :
  Z.abs (a * b) < 2 ^ 53 -> jsmul (num a) (num b) = num (a * b).
Proof.
  intros H. change (jsmul (num a) (num b)) with (roundDouble (inject_Z (a * b))).
  now apply roundDouble_integer.
Qed.

(** A product that is an integer below 2^53 is computed exactly. *)
Lemma jsmul_exact (p q : Q) (z : Z) :
  (p * q == inject_Z z)%Q -> Z.abs z < 2 ^ 53 ->
  jsmul (Fin p) (Fin q) = num z.
Proof.
  intros E H. change (jsmul (Fin p) (Fin q)) with (roundDouble (p * q)).
  rewrite (roundDouble_Qeq _ _ E). now apply roundDouble_integer.
Qed.

Lemma jssub_num (a b : Z) : jssub (num a) (num b) = num (a - b).
Proof.
  unfold jssub, jsneg, jsadd, num, inject_Z, Qplus, Qopp; simpl.
  now rewrite !Z.mul_1_r.
Qed.

Lemma reduced_num (z : Z) : reduced (num z).
Proof. simpl. apply Z.gcd_1_r. Qed.

Lemma reduced_Qred (q : Q) : reduced (Fin (Qred q)).
Proof. simpl. apply gcd_Qred. Qed.

Lemma reduced_roundDouble (x : Q) : reduced (roundDouble x).
Proof.
  unfold roundDouble.
  destruct (Z.abs (Qnum (Qred x)) =? 0); [apply (reduced_num 0) |].
  match goal with |- context [if ?c then Inf _ else _] => destruct c end;
    [exact I | apply reduced_Qred].
Qed.

Lemma reduced_jsneg (n : jsnum) : reduced n -> reduced (jsneg n).
Proof.
  destruct n as [| s | [p d]]; simpl; auto.
  now rewrite Z.gcd_opp_l.
Qed.

(** In lowest terms, Number.isInteger holds of the integers only. *)
Lemma reduced_integer (n : jsnum) :
  reduced n -> isInteger n = true -> exists z, n = num z.
Proof.
  destruct n as [| s | [p d]]; simpl; try discriminate.
  intros Hg Hm. apply Z.eqb_eq in Hm.
  assert (Hdiv : (Zpos d | p)) by (apply Z.mod_divide; [lia | exact Hm]).
  assert (H1 : (Zpos d | 1)).
  { rewrite <- Hg. apply Z.gcd_greatest; [exact Hdiv | apply Z.divide_refl]. }
  apply Z.divide_1_r_nonneg in H1; [| lia].
  exists p. unfold num, inject_Z. f_equal. f_equal. lia.
Qed.

Lemma isInteger_num (z : Z) : isInteger (num z) = true.
Proof. simpl. now rewrite Z.mod_1_r. Qed.

End IntegerNumbers.

(* ------------------------------------------------------------------ *)
(** ** Number(text) yields numbers in lowest terms *)

Section NumberOfText.

Lemma readRadix_reduced (radix : Z) (s : string) : reduced (readRadix radix s).
Proof.
  unfold readRadix. destruct (readDigits radix s 0 0) as [[v n] r].
  destruct n; [exact I |]. destruct r; [apply reduced_roundDouble | exact I].
Qed.

Lemma readUnsignedDecimal_reduced (s : string) : reduced (readUnsignedDecimal s).
Proof.
  unfold readUnsignedDecimal.
  destruct (String.eqb s "Infinity"); [exact I |].
  destruct (readDigits 10 s 0 0) as [[i ni] r].
  destruct (match r with
            | EmptyString => (0, 0%nat, r)
            | String c t => if Ascii.eqb c "." then readDigits 10 t 0 0
                            else (0, 0%nat, r)
            end) as [[f nf] r'].
  destruct ni, nf; try exact I;
    destruct (readExponent r'); try exact I; apply reduced_roundDouble.
Qed.

Lemma readNumeric_reduced (s : string) : reduced (readNumeric s).
Proof.
  unfold readNumeric. destruct s as [| c r]; [exact I |].
  destruct (Ascii.eqb c "+"); [apply readUnsignedDecimal_reduced |].
  destruct (Ascii.eqb c "-");
    [apply reduced_jsneg, readUnsignedDecimal_reduced |].
  destruct r as [| d r']; [apply readUnsignedDecimal_reduced |].
  destruct (if Ascii.eqb c "0" then radixOf d else None);
    [apply readRadix_reduced | apply readUnsignedDecimal_reduced].
Qed.

Lemma StringToNumber_reduced (s : string) : reduced (StringToNumber s).
Proof.
  unfold StringToNumber. destruct (trim s) eqn:E.
  - apply reduced_num.
  - apply readNumeric_reduced.
Qed.

Lemma StringToNumber_integer (s : string) :
  isInteger (StringToNumber s) = true -> exists z, StringToNumber s = num z.
Proof. apply reduced_integer, StringToNumber_reduced. Qed.

End NumberOfText.

(* ------------------------------------------------------------------ *)
(** ** toMinutes *)

Section TimeUtility.

Lemma charAtIs_get (t : string) (i : nat) (c : ascii) :
  charAtIs t i c = true <-> String.get i t = Some c.
Proof.
  unfold charAtIs. destruct (String.get i t) as [d |].
  - rewrite Ascii.eqb_eq. split; congruence.
  - split; discriminate.
Qed.

Lemma not_integer_part (n : jsnum) : isInteger n = false -> ~ isIntegerPart n.
Proof.
  intros H [z ->]. rewrite isInteger_num in H. discriminate.
Qed.

(** Every run of toMinutes: one of the reasons applies and the result is NaN,
    or both parts are integers in range and the result is their combination. *)
Lemma toMinutes_cases (t : string) :
  (malformed t /\ toMinutes t = NaN)
  \/ (exists h m,
        String.length t = 5%nat /\ String.get 2 t = Some ":"%char
        /\ hourPart t = num h /\ minutePart t = num m
        /\ 0 <= h <= 23 /\ 0 <= m <= 59
        /\ toMinutes t = num (h * 60 + m)).
Proof.
  unfold toMinutes, malformed. fold (hourPart t) (minutePart t).
  destruct (Nat.eqb_spec (String.length t) 5) as [Hl | Hl]; simpl; [| now auto].
  destruct (charAtIs t 2 ":") eqn:Hc; simpl.
  2:{ left. split; [| reflexivity]. right. left.
      intros G. apply charAtIs_get in G. congruence. }
  apply charAtIs_get in Hc.
  destruct (isInteger (hourPart t)) eqn:Hh; simpl.
  2:{ left. split; [| reflexivity]. do 2 right. left.
      now apply not_integer_part. }
  destruct (isInteger (minutePart t)) eqn:Hm; simpl.
  2:{ left. split; [| reflexivity]. do 3 right. left.
      now apply not_integer_part. }
  destruct (StringToNumber_integer _ Hh) as [h Eh].
  destruct (StringToNumber_integer _ Hm) as [m Em].
  fold (hourPart t) in Eh. fold (minutePart t) in Em.
  rewrite Eh, Em. unfold jsgt. rewrite !jslt_num.
  destruct (Z.ltb_spec h 0); simpl.
  { left. split; [| reflexivity]. do 4 right. left. exists h. auto. }
  destruct (Z.ltb_spec 23 h); simpl.
  { left. split; [| reflexivity]. do 4 right. left. exists h. auto. }
  destruct (Z.ltb_spec m 0); simpl.
  { left. split; [| reflexivity]. do 5 right. exists m. auto. }
  destruct (Z.ltb_spec 59 m); simpl.
  { left. split; [| reflexivity]. do 5 right. exists m. auto. }
  rewrite jsmul_num, jsadd_num by lia.
  right. exists h, m. repeat split; auto; lia.
Qed.

(** The result of toMinutes is NaN or an integer of [0, 1439]. *)
Lemma toMinutes_range (t : string) :
  toMinutes t = NaN \/ exists z, toMinutes t = num z /\ 0 <= z <= 1439.
Proof.
  destruct (toMinutes_cases t) as [[_ H] | (h & m & _ & _ & _ & _ & Hh & Hm & E)].
  - now left.
  - right. exists (h * 60 + m). split; [exact E | lia].
Qed.

Lemma digit_cases (a : Z) :
  0 <= a <= 9 ->
  a = 0 \/ a = 1 \/ a = 2 \/ a = 3 \/ a = 4 \/ a = 5 \/ a = 6 \/ a = 7
  \/ a = 8 \/ a = 9.
Proof. lia. Qed.

Lemma StringToNumber_two_digits (a b : Z) :
  0 <= a <= 9 -> 0 <= b <= 9 ->
  StringToNumber (String (digitChar a) (String (digitChar b) EmptyString))
  = num (10 * a + b).
Proof.
  intros Ha Hb.
  apply digit_cases in Ha. apply digit_cases in Hb.
  repeat (destruct Ha as [Ha | Ha]; [subst a | ]); try subst a;
    repeat (destruct Hb as [Hb | Hb]; [subst b | ]); try subst b;
    vm_compute; reflexivity.
Qed.

Lemma digitOf_digitChar (c : ascii) (a : Z) :
  digitOf c = Some a -> 0 <= a <= 9 /\ c = digitChar a.
Proof.
  unfold digitOf, digitChar.
  destruct (Z.leb_spec 48 (Z.of_nat (nat_of_ascii c))) as [Hlo | Hlo];
    cbn [andb]; [| discriminate].
  destruct (Z.leb_spec (Z.of_nat (nat_of_ascii c)) 57) as [Hhi | Hhi];
    [| discriminate].
  intros E. injection E as <-. split; [lia |].
  replace (48 + Z.to_nat (Z.of_nat (nat_of_ascii c) - 48))%nat
    with (nat_of_ascii c) by lia.
  symmetry. apply ascii_nat_embedding.
Qed.

Lemma digitChar_not_colon (a : Z) : 0 <= a <= 9 -> digitChar a <> ":"%char.
Proof.
  intros Ha. apply digit_cases in Ha.
  repeat (destruct Ha as [Ha | Ha]; [subst a; discriminate | ]).
  subst a; discriminate.
Qed.

(** toMinutes on two digits, a colon, two digits. *)
Lemma toMinutes_clockText (a b c d : Z) :
  0 <= a <= 9 -> 0 <= b <= 9 -> 0 <= c <= 9 -> 0 <= d <= 9 ->
  toMinutes (clockText a b c d)
  = if (10 * a + b <=? 23) && (10 * c + d <=? 59)
    then num (60 * (10 * a + b) + (10 * c + d))
    else NaN.
Proof.
  intros Ha Hb Hc Hd.
  destruct (toMinutes_cases (clockText a b c d))
    as [[Hbad E] | (h & m & _ & _ & Eh & Em & Hh & Hm & E)].
  - rewrite E.
    destruct Hbad as [H | [H | [H | [H | [H | H]]]]].
    + now elim H.
    + now elim H.
    + elim H. exists (10 * a + b). unfold hourPart, clockText, slice; simpl.
      now apply StringToNumber_two_digits.
    + elim H. exists (10 * c + d). unfold minutePart, clockText, slice; simpl.
      now apply StringToNumber_two_digits.
    + destruct H as (z & Ez & Hz).
      unfold hourPart, clockText, slice in Ez; simpl in Ez.
      rewrite StringToNumber_two_digits in Ez by assumption.
      apply num_inj in Ez. subst z.
      destruct (Z.leb_spec (10 * a + b) 23); simpl; [lia | reflexivity].
    + destruct H as (z & Ez & Hz).
      unfold minutePart, clockText, slice in Ez; simpl in Ez.
      rewrite StringToNumber_two_digits in Ez by assumption.
      apply num_inj in Ez. subst z.
      destruct (Z.leb_spec (10 * c + d) 59); simpl;
        [lia | now rewrite andb_false_r].
  - unfold hourPart, clockText, slice in Eh; simpl in Eh.
    unfold minutePart, clockText, slice in Em; simpl in Em.
    rewrite StringToNumber_two_digits in Eh, Em by assumption.
    apply num_inj in Eh. apply num_inj in Em. subst h m.
    rewrite E.
    destruct (Z.leb_spec (10 * a + b) 23); [| lia].
    destruct (Z.leb_spec (10 * c + d) 59); [| lia].
    cbn [andb]. f_equal. lia.
Qed.

(** On a text in the format "HH:MM" toMinutes gives the minutes the text
    stands for. *)
Lemma toMinutes_clockMinutes (t : string) (m : Z) :
  clockMinutes t = Some m -> toMinutes t = num m /\ 0 <= m <= 1439.
Proof.
  unfold clockMinutes.
  destruct t as [| a [| b [| sep [| c [| d [| x r]]]]]]; try discriminate.
  destruct (digitOf a) as [a' |] eqn:Ea; [| discriminate].
  destruct (digitOf b) as [b' |] eqn:Eb; [| discriminate].
  destruct (digitOf c) as [c' |] eqn:Ec; [| discriminate].
  destruct (digitOf d) as [d' |] eqn:Ed; [| discriminate].
  apply digitOf_digitChar in Ea as [Ha ->], Eb as [Hb ->],
    Ec as [Hc ->], Ed as [Hd ->].
  destruct (Ascii.eqb_spec sep ":") as [-> | _]; cbn [andb]; [| discriminate].
  fold (clockText a' b' c' d').
  rewrite (toMinutes_clockText a' b' c' d') by assumption.
  destruct (Z.leb_spec (10 * a' + b') 23) as [Hh | Hh]; cbn [andb];
    [| discriminate].
  destruct (Z.leb_spec (10 * c' + d') 59) as [Hm | Hm]; [| discriminate].
  intros E.
  assert (Em : 60 * (10 * a' + b') + (10 * c' + d') = m) by congruence.
  subst m. split; [reflexivity | lia].
Qed.

End TimeUtility.

(* ------------------------------------------------------------------ *)
(** ** getShiftMinutes *)

Section ShiftMinutes.

Lemma getShiftMinutes_num (a b : string) (s e : Z) :
  toMinutes a = num s -> toMinutes b = num e ->
  getShiftMinutes a b = num (if e <? s then e + 1440 - s else e - s).
Proof.
  intros Ha Hb. unfold getShiftMinutes. rewrite Ha, Hb. cbn [isFinite num negb orb].
  fold (num e) (num s). rewrite jslt_num.
  destruct (e <? s).
  - rewrite jsmul_num by (cbn; lia). now rewrite jsadd_num, jssub_num.
  - now rewrite jssub_num.
Qed.

Lemma getShiftMinutes_NaN (a b : string) :
  toMinutes a = NaN \/ toMinutes b = NaN -> getShiftMinutes a b = NaN.
Proof.
  unfold getShiftMinutes. intros [H | H]; rewrite H.
  - reflexivity.
  - now rewrite orb_true_r.
Qed.

(** The result is NaN or the integer duration, between 0 and 1439. *)
Lemma getShiftMinutes_cases (a b : string) :
  ((toMinutes a = NaN \/ toMinutes b = NaN) /\ getShiftMinutes a b = NaN)
  \/ (exists s e,
        toMinutes a = num s /\ toMinutes b = num e
        /\ 0 <= s <= 1439 /\ 0 <= e <= 1439
        /\ getShiftMinutes a b = num (if e <? s then e + 1440 - s else e - s)).
Proof.
  destruct (toMinutes_range a) as [Ha | (s & Ha & Hs)].
  { left. split; [now left | apply getShiftMinutes_NaN; now left]. }
  destruct (toMinutes_range b) as [Hb | (e & Hb & He)].
  { left. split; [now right | apply getShiftMinutes_NaN; now right]. }
  right. exists s, e. repeat split; try lia; try assumption.
  now apply getShiftMinutes_num.
Qed.

Lemma getShiftMinutes_integer (a b : string) :
  getShiftMinutes a b = NaN
  \/ exists z, getShiftMinutes a b = num z /\ 0 <= z <= 1439.
Proof.
  destruct (getShiftMinutes_cases a b)
    as [[_ H] | (s & e & _ & _ & Hs & He & H)]; [now left |].
  right. eexists. split; [exact H |].
  destruct (Z.ltb_spec e s); lia.
Qed.

End ShiftMinutes.

(* ------------------------------------------------------------------ *)
(** ** The search loops and the tests of assignShift, against the
       vocabulary of the specification *)

Section Checks.

Import Persistence Business Spec.

Lemma employeeExists_first (fs : files) (empId : string) :
  employeeExists fs empId
  = match firstEmployee (employeesFile fs) empId with
    | Some _ => true
    | None => false
    end.
Proof.
  unfold employeeExists. induction (employeesFile fs) as [| e l IH]; simpl.
  - reflexivity.
  - destruct (String.eqb (employeeId e) empId); simpl; [reflexivity | exact IH].
Qed.

Lemma shiftNamed_first (fs : files) (shftId : string) :
  shiftNamed fs shftId = firstShift (shiftsFile fs) shftId.
Proof.
  unfold shiftNamed. induction (shiftsFile fs) as [| s l IH]; simpl.
  - reflexivity.
  - destruct (String.eqb (shiftId s) shftId); [reflexivity | exact IH].
Qed.

Lemma pairAssigned_first (fs : files) (empId shftId : string) :
  pairAssigned fs empId shftId
  = match firstAssignment (assignmentsFile fs) empId shftId with
    | Some _ => true
    | None => false
    end.
Proof.
  unfold pairAssigned. induction (assignmentsFile fs) as [| a l IH]; simpl.
  - reflexivity.
  - destruct (String.eqb (asgEmployeeId a) empId && String.eqb (asgShiftId a) shftId);
      simpl; [reflexivity | exact IH].
Qed.

Lemma pairAssigned_In (fs : files) (empId shftId : string) :
  pairAssigned fs empId shftId = true
  <-> In (empId, shftId) (map pairOf (assignmentsFile fs)).
Proof.
  unfold pairAssigned. rewrite existsb_exists, in_map_iff.
  split; intros (a & H1 & H2); exists a.
  - apply andb_prop in H2 as [He Hs].
    apply String.eqb_eq in He, Hs. unfold pairOf. split; [congruence | exact H1].
  - unfold pairOf in H1. inversion H1; subst. split; [exact H2 |].
    now rewrite !String.eqb_refl.
Qed.

Lemma Qltb_lt (a b : Q) : Qltb a b = true <-> (a < b)%Q.
Proof.
  unfold Qltb. rewrite Qlt_alt. destruct (a ?= b)%Q; split; congruence.
Qed.

Lemma Qltb_comp (a a' b b' : Q) :
  (a == a')%Q -> (b == b')%Q -> Qltb a b = Qltb a' b'.
Proof. intros Ha Hb. unfold Qltb. now rewrite Ha, Hb. Qed.

(** The test [!Number.isFinite(n) || n <= 0]. *)
Lemma not_positive_test (n : jsnum) :
  negb (isFinite n) || jsle n (num 0)
  = negb (match n with Fin q => Qltb 0 q | _ => false end).
Proof. destruct n as [| s | q]; reflexivity. Qed.

(** Against an integer, flooring the other side changes nothing. *)
Lemma floor_compare (x y : Q) (z : Z) :
  (y == inject_Z z)%Q -> Qltb (inject_Z (Qfloor x)) y = Qltb x y.
Proof.
  intros Hy. rewrite (Qltb_comp _ (inject_Z (Qfloor x)) y (inject_Z z)),
    (Qltb_comp x x y (inject_Z z)) by (assumption || reflexivity).
  destruct (Qltb x (inject_Z z)) eqn:E.
  - apply Qltb_lt. apply Qltb_lt in E.
    apply Qle_lt_trans with x; [apply Qfloor_le | exact E].
  - destruct (Qltb (inject_Z (Qfloor x)) (inject_Z z)) eqn:F; [| reflexivity].
    apply Qltb_lt in F. rewrite <- Zlt_Qlt in F.
    assert (G : (x < inject_Z z)%Q).
    { apply Qlt_le_trans with (inject_Z (Qfloor x + 1)); [apply Qlt_floor |].
      rewrite <- Zle_Qle. lia. }
    apply Qltb_lt in G. congruence.
Qed.

Lemma jslt_Fin (p q : Q) : jslt (Fin p) (Fin q) = Qltb p q.
Proof. reflexivity. Qed.

(** The same for Math.floor of any number. *)
Lemma floor_exceeded (x : jsnum) (y : Q) (z : Z) :
  (y == inject_Z z)%Q -> jsgt (Fin y) (floor x) = jsgt (Fin y) x.
Proof.
  intros Hy. unfold jsgt. destruct x as [| sg | x]; try reflexivity.
  cbn [floor]. unfold num. rewrite !jslt_Fin. now apply floor_compare with z.
Qed.

(** Whether the cap is exceeded is the same for equal numbers of minutes. *)
Lemma exceedsCap_comp (a b cap : Q) :
  (a == b)%Q -> exceedsCap a cap = exceedsCap b cap.
Proof.
  intros H. unfold exceedsCap, jsgt.
  destruct (capMinutes cap) as [| [|] | x]; try reflexivity.
  rewrite !jslt_Fin. now apply Qltb_comp.
Qed.

(** The identifiers joined for an employee hold one exactly when the pair is
    in assignments.json. *)
Lemma joined_pairAssigned (fs : files) (empId : string) (sid : string) :
  existsb (String.eqb sid)
          (map asgShiftId
               (filter (fun a => String.eqb (asgEmployeeId a) empId)
                       (assignmentsFile fs)))
  = pairAssigned fs empId sid.
Proof.
  unfold pairAssigned. induction (assignmentsFile fs) as [| a l IH]; simpl;
    [reflexivity |].
  destruct (String.eqb (asgEmployeeId a) empId); simpl; [| exact IH].
  now rewrite IH, (String.eqb_sym sid).
Qed.

(** The join of getEmployeeShifts selects the shifts assigned to the
    employee. *)
Lemma joinShifts_filter (fs : files) (empId : string) :
  joinShifts fs empId
  = filter (fun s => pairAssigned fs empId (shiftId s)) (shiftsFile fs).
Proof.
  unfold joinShifts. apply filter_ext. intros s. apply joined_pairAssigned.
Qed.

Lemma joinShifts_assigned (fs : files) (empId : string) :
  joinShifts fs empId = assignedShifts fs empId.
Proof. apply joinShifts_filter. Qed.

Lemma validDuration_integer (s : shift) :
  validDuration s = true ->
  exists z, getShiftMinutes (startTime s) (endTime s) = num z
            /\ durationOf s = inject_Z z /\ 0 < z <= 1439.
Proof.
  unfold validDuration, durationOf.
  destruct (getShiftMinutes_integer (startTime s) (endTime s))
    as [E | (z & E & Hz)]; rewrite E; [discriminate |].
  unfold num. intros H. apply Qltb_lt in H.
  change 0%Q with (inject_Z 0) in H. rewrite <- Zlt_Qlt in H.
  exists z. repeat split; auto; lia.
Qed.

(** Valid durations add up to an integer. *)
Lemma durations_integer (l : list shift) :
  forallb validDuration l = true ->
  exists z, (fold_right Qplus 0 (map durationOf l) == inject_Z z)%Q /\ 0 <= z.
Proof.
  induction l as [| s l IH]; simpl; intros H.
  - exists 0. split; [reflexivity | lia].
  - apply andb_prop in H as [Hs Hl].
    destruct (IH Hl) as (z & Ez & Hz).
    destruct (validDuration_integer s Hs) as (d & _ & Ed & Hd).
    exists (d + z). split; [| lia].
    rewrite Ed, Ez, inject_Z_plus. reflexivity.
Qed.

End Checks.

(* ------------------------------------------------------------------ *)
(** ** Running assignShift *)

Section Running.

Import Persistence Business Spec.

Lemma world_eta (w : world) : w = mkWorld (store w) (trace w).
Proof. now destruct w. Qed.

(** The loop over the scheduled shifts: it leaves the files alone, makes
    only duration calls, and either stops at a same-day shift without a valid
    duration or adds the same-day durations to its accumulator. *)
Lemma sumScheduled_run (day : string) (l : list shift) :
  forall (a : Q) (w : world),
  exists q cs,
    sumScheduled l day (Fin a) w
    = ((if forallb validDuration (filter (fun s => String.eqb (date s) day) l)
        then Some (Fin q) else None),
       mkWorld (store w) (trace w ++ cs))
    /\ (q == a + fold_right Qplus 0
                   (map durationOf
                        (filter (fun s => String.eqb (date s) day) l)))%Q
    /\ forallb isDurationCall cs = true.
Proof.
  induction l as [| s l IH]; intros a w; simpl.
  - exists a, []. rewrite app_nil_r, <- world_eta.
    repeat split. ring.
  - destruct (String.eqb (date s) day); [| apply IH].
    unfold bind at 1. unfold callGetShiftMinutes, bind, logCall, ret.
    rewrite not_positive_test. simpl forallb.
    unfold validDuration at 1.
    destruct (getShiftMinutes (startTime s) (endTime s)) as [| sg | m] eqn:E;
      cbn [negb andb].
    + eexists. exists [CallGetShiftMinutes (startTime s) (endTime s)].
      split; [reflexivity | split; reflexivity].
    + eexists. exists [CallGetShiftMinutes (startTime s) (endTime s)].
      split; [reflexivity | split; reflexivity].
    + destruct (Qltb 0 m) eqn:Hm; cbn [negb].
      * destruct (IH (a + m)%Q
                     (mkWorld (store w)
                        (trace w ++ [CallGetShiftMinutes (startTime s) (endTime s)])))
          as (q & cs & Hrun & Hq & Hcs).
        exists q, (CallGetShiftMinutes (startTime s) (endTime s) :: cs).
        change (jsadd (Fin a) (Fin m)) with (Fin (a + m)).
        rewrite Hrun. simpl store. simpl trace. rewrite <- app_assoc. simpl.
        repeat split; [| exact Hcs].
        rewrite Hq. unfold durationOf at 2. rewrite E. ring.
      * eexists. exists [CallGetShiftMinutes (startTime s) (endTime s)].
        split; [reflexivity | split; reflexivity].
Qed.

Lemma duration_calls_do_not_write (cs : list call) :
  forallb isDurationCall cs = true -> existsb isWriteCall cs = false.
Proof.
  induction cs as [| c cs IH]; simpl; [reflexivity |].
  intros H. apply andb_prop in H as [Hc Hcs].
  rewrite (IH Hcs). now destruct c.
Qed.

(** Closes a branch of the run once message and files are settled: the calls
    made are whatever the trace has gained. *)
Ltac settle_branch :=
  eexists; cbn [store trace]; rewrite <- ?app_assoc;
  split; [reflexivity |];
  split; [discriminate || reflexivity |];
  split; [discriminate || reflexivity |];
  rewrite ?existsb_app;
  repeat match goal with
         | H : forallb isDurationCall _ = true |- _ =>
             rewrite (duration_calls_do_not_write _ H)
         end;
  reflexivity.

Lemma assignShift_run (empId shftId : string) (w : world) :
  exists cs,
    assignShift empId shftId w
    = (message (workflow (store w) empId shftId),
       mkWorld (storeAfter (store w) empId shftId) (trace w ++ cs))
    /\ (workflow (store w) empId shftId = EmployeeMissing ->
        cs = [CallFindEmployee empId])
    /\ (workflow (store w) empId shftId = ShiftMissing ->
        cs = [CallFindEmployee empId; CallFindShift shftId])
    /\ existsb isWriteCall cs
       = match workflow (store w) empId shftId with
         | Assigned => true
         | _ => false
         end.
Proof.
  destruct w as [fs tr]. unfold storeAfter, workflow. cbn [store trace].
  rewrite employeeExists_first, shiftNamed_first, pairAssigned_first.
  unfold assignShift, findEmployee, findShift, findAssignment, getConfig,
    readSettings, getEmployeeShifts, addAssignment, callGetShiftMinutes,
    writeAssignments, NumberOfNumber, bind, logCall, readFiles, ret; simpl.
  destruct (firstEmployee (employeesFile fs) empId) as [emp |] eqn:Eemp; simpl;
    [| settle_branch].
  destruct (firstShift (shiftsFile fs) shftId) as [sh |] eqn:Esh; simpl;
    [| settle_branch].
  destruct (firstAssignment (assignmentsFile fs) empId shftId) as [asg |] eqn:Easg;
    simpl; [settle_branch |].
  rewrite !not_positive_test. unfold configured.
  destruct (maxDailyHours (readSettingsFrom (configMaxDailyHours fs)))
    as [| sg | cap] eqn:Ecap; cbn [negb]; [settle_branch | settle_branch |].
  destruct (Qltb 0 cap) eqn:Hcap; cbn [negb]; [| settle_branch].
  change (match getShiftMinutes (startTime sh) (endTime sh) with
          | Fin q => Qltb 0 q
          | _ => false
          end) with (validDuration sh).
  destruct (validDuration sh) eqn:Hval; cbn [negb]; [| settle_branch].
  destruct (validDuration_integer sh Hval) as (z & Ez & Edur & Hz).
  cbn [store trace].
  match goal with
  | |- context [sumScheduled ?l ?d _ ?w0] =>
      destruct (sumScheduled_run d l 0%Q w0) as (q & cs & Hrun & Hq & Hcs)
  end.
  change (num 0) with (Fin 0%Q). rewrite Hrun. clear Hrun.
  rewrite joinShifts_assigned in *.
  change (filter (fun s => String.eqb (date s) (date sh))
                 (assignedShifts fs empId))
    with (sameDayShifts fs empId (date sh)) in *.
  fold (scheduledMinutes fs empId (date sh)) in Hq.
  destruct (forallb validDuration (sameDayShifts fs empId (date sh))) eqn:Hall;
    cbn [negb]; [| settle_branch].
  destruct (durations_integer _ Hall) as (zs & Ezs & _).
  fold (scheduledMinutes fs empId (date sh)) in Ezs.
  rewrite Ez.
  assert (Hcmp : jsgt (jsadd (Fin q) (num z))
                      (floor (jsmul (Fin cap) (num 60)))
                 = exceedsCap (totalWith fs empId sh) cap).
  { change (jsadd (Fin q) (num z)) with (Fin (q + inject_Z z)).
    rewrite (floor_exceeded _ _ (zs + z))
      by (rewrite Hq, Ezs, inject_Z_plus; ring).
    apply exceedsCap_comp. unfold totalWith. rewrite Hq, Edur. ring. }
  rewrite Hcmp.
  destruct (exceedsCap (totalWith fs empId sh) cap);
    settle_branch.
Qed.

Lemma assignShift_message (empId shftId : string) (w : world) :
  fst (assignShift empId shftId w) = message (workflow (store w) empId shftId).
Proof.
  destruct (assignShift_run empId shftId w) as (cs & E & _). now rewrite E.
Qed.

Lemma assignShift_store (empId shftId : string) (w : world) :
  store (snd (assignShift empId shftId w)) = storeAfter (store w) empId shftId.
Proof.
  destruct (assignShift_run empId shftId w) as (cs & E & _). now rewrite E.
Qed.

Lemma message_inj (o o' : outcome) : message o = message o' -> o = o'.
Proof. destruct o, o'; simpl; intros H; try reflexivity; discriminate H. Qed.

Lemma message_Ok (o : outcome) : message o = "Ok" <-> o = Assigned.
Proof.
  split; [apply (message_inj o Assigned) | now intros ->].
Qed.

(** readSettings never hands out anything but a finite positive number. *)
Lemma readSettingsFrom_positive (raw : jsvalue) :
  finitePositive (maxDailyHours (readSettingsFrom raw)).
Proof.
  unfold readSettingsFrom. rewrite not_positive_test.
  destruct (ToNumber raw) as [| sg | q]; cbn [negb maxDailyHours].
  1,2: exists (inject_Z 8); split; [reflexivity | reflexivity].
  destruct (Qltb 0 q) eqn:Hq; cbn [negb maxDailyHours].
  - exists q. split; [reflexivity | now apply Qltb_lt].
  - exists (inject_Z 8). split; reflexivity.
Qed.


(** The outcome when the pair is already in assignments.json. *)
Lemma workflow_pair_assigned (fs : files) (empId shftId : string) :
  pairAssigned fs empId shftId = true ->
  workflow fs empId shftId
  = if negb (employeeExists fs empId) then EmployeeMissing
    else match shiftNamed fs shftId with
         | None => ShiftMissing
         | Some _ => AlreadyAssigned
         end.
Proof.
  intros H. unfold workflow. rewrite H.
  destruct (negb (employeeExists fs empId)); [reflexivity |].
  now destruct (shiftNamed fs shftId).
Qed.

Lemma workflow_Assigned_pair (fs : files) (empId shftId : string) :
  workflow fs empId shftId = Assigned -> pairAssigned fs empId shftId = false.
Proof.
  intros H. destruct (pairAssigned fs empId shftId) eqn:E; [| reflexivity].
  rewrite (workflow_pair_assigned _ _ _ E) in H.
  destruct (negb (employeeExists fs empId)); [discriminate |].
  destruct (shiftNamed fs shftId); discriminate.
Qed.

(** The outcome when the new shift has no valid positive duration. *)
Lemma workflow_invalid_duration (fs : files) (empId shftId : string) (sh : shift) :
  shiftNamed fs shftId = Some sh -> validDuration sh = false ->
  workflow fs empId shftId
  = if negb (employeeExists fs empId) then EmployeeMissing
    else if pairAssigned fs empId shftId then AlreadyAssigned
    else InvalidShiftTime.
Proof.
  intros Hs Hv. unfold workflow. rewrite Hs, Hv.
  destruct (negb (employeeExists fs empId)); [reflexivity |].
  destruct (pairAssigned fs empId shftId); [reflexivity |].
  destruct (readSettingsFrom_positive (configMaxDailyHours fs)) as (q & Eq & Hq).
  unfold configured. rewrite Eq. apply Qltb_lt in Hq. now rewrite Hq.
Qed.

Lemma pairsUnique_withAssignment (fs : files) (empId shftId : string) :
  pairsUnique fs -> pairAssigned fs empId shftId = false ->
  pairsUnique (withAssignment fs empId shftId).
Proof.
  unfold pairsUnique, withAssignment. cbn [assignmentsFile].
  intros Hu Hp. rewrite map_app. apply NoDup_app.
  - exact Hu.
  - simpl. constructor; [intros [] | constructor].
  - intros a Ha [<- | []].
    change (In (empId, shftId) (map pairOf (assignmentsFile fs))) in Ha.
    apply pairAssigned_In in Ha. congruence.
Qed.

End Running.

(* ------------------------------------------------------------------ *)
(** ** The order on texts *)

Section TextOrder.

Lemma strlt_irrefl (a : string) : strlt a a = false.
Proof.
  induction a as [| c a IH]; simpl; [reflexivity |].
  now rewrite Nat.ltb_irrefl.
Qed.

Lemma strlt_asym (a : string) : forall b, strlt a b = true -> strlt b a = false.
Proof.
  induction a as [| c a IH]; intros [| d b]; simpl; try congruence.
  destruct (Nat.ltb_spec (nat_of_ascii c) (nat_of_ascii d)),
           (Nat.ltb_spec (nat_of_ascii d) (nat_of_ascii c));
    try lia; try congruence. apply IH.
Qed.

(** [a <= b] and [b <= c] give [a <= c], with [x <= y] read as "not y < x". *)
Lemma strle_trans (a : string) :
  forall b c, strlt b a = false -> strlt c b = false -> strlt c a = false.
Proof.
  induction a as [| x a IH]; intros [| y b] [| z c]; simpl; try congruence.
  destruct (Nat.ltb_spec (nat_of_ascii y) (nat_of_ascii x)),
           (Nat.ltb_spec (nat_of_ascii x) (nat_of_ascii y)),
           (Nat.ltb_spec (nat_of_ascii z) (nat_of_ascii y)),
           (Nat.ltb_spec (nat_of_ascii y) (nat_of_ascii z)),
           (Nat.ltb_spec (nat_of_ascii z) (nat_of_ascii x)),
           (Nat.ltb_spec (nat_of_ascii x) (nat_of_ascii z));
    try lia; try congruence. apply IH.
Qed.

Lemma nat_of_ascii_inj (c d : ascii) : nat_of_ascii c = nat_of_ascii d -> c = d.
Proof.
  intros H. rewrite <- (ascii_nat_embedding c), <- (ascii_nat_embedding d).
  now rewrite H.
Qed.

Lemma strle_antisym (a : string) :
  forall b, strlt a b = false -> strlt b a = false -> a = b.
Proof.
  induction a as [| c a IH]; intros [| d b]; simpl; try congruence.
  destruct (Nat.ltb_spec (nat_of_ascii c) (nat_of_ascii d)),
           (Nat.ltb_spec (nat_of_ascii d) (nat_of_ascii c));
    try lia; try congruence.
  intros H1 H2. f_equal; [apply nat_of_ascii_inj; lia | now apply IH].
Qed.

(** With a common front the comparison is that of the rests. *)
Lemma strlt_app (p a b : string) :
  strlt (p ++ a) (p ++ b) = strlt a b.
Proof.
  induction p as [| c p IH]; simpl; [reflexivity |].
  now rewrite Nat.ltb_irrefl.
Qed.

(** Fronts of the same length decide first. *)
Lemma strlt_app_same_length (p : string) :
  forall q a b,
    String.length p = String.length q ->
    strlt (p ++ a) (q ++ b)
    = strlt p q || (String.eqb p q && strlt a b).
Proof.
  induction p as [| c p IH]; intros [| d q] a b Hl; simpl in *; try discriminate.
  - reflexivity.
  - destruct (Nat.ltb_spec (nat_of_ascii c) (nat_of_ascii d));
      [reflexivity |].
    destruct (Nat.ltb_spec (nat_of_ascii d) (nat_of_ascii c)).
    + destruct (Ascii.eqb_spec c d) as [-> | _]; [lia | reflexivity].
    + assert (c = d) by (apply nat_of_ascii_inj; lia). subst d.
      rewrite Ascii.eqb_refl. apply IH. now injection Hl.
Qed.

End TextOrder.

(* ------------------------------------------------------------------ *)
(** ** The bubble sort of getScheduleForEmployeeSorted *)

Section BubbleSort.

Import Web.
Local Open Scope list_scope.

Lemma keyLe_total (a b : shift) : keyLe a b \/ keyLe b a.
Proof.
  unfold keyLe, strgt.
  destruct (strlt (sortKey b) (sortKey a)) eqn:E; [right | now left].
  now apply strlt_asym.
Qed.

Lemma keyLe_trans (a b c : shift) : keyLe a b -> keyLe b c -> keyLe a c.
Proof.
  unfold keyLe, strgt. intros H1 H2.
  exact (strle_trans (sortKey a) (sortKey b) (sortKey c) H1 H2).
Qed.

(** *** The loop over indices is the pass by recursion *)

Lemma setAt_middle {A : Type} (pre : list A) (x y : A) (rest : list A) :
  setAt (List.length pre) x (pre ++ y :: rest) = (pre ++ x :: rest)%list.
Proof. induction pre as [| p pre IH]; simpl; [reflexivity | now rewrite IH]. Qed.

Lemma nth_error_middle {A : Type} (pre : list A) (y : A) (rest : list A) :
  nth_error (pre ++ y :: rest) (List.length pre) = Some y.
Proof. induction pre as [| p pre IH]; simpl; [reflexivity | exact IH]. Qed.

Lemma compareSwap_at (pre : list shift) (a b : shift) (rest : list shift) :
  compareSwap (pre ++ a :: b :: rest) (List.length pre)
  = if strgt (sortKey a) (sortKey b)
    then (pre ++ b :: a :: rest)%list
    else (pre ++ a :: b :: rest)%list.
Proof.
  unfold compareSwap. rewrite nth_error_middle.
  replace (List.length pre + 1)%nat with (List.length (pre ++ [a])%list)
    by (rewrite length_app; reflexivity).
  replace (pre ++ a :: b :: rest)%list with ((pre ++ [a]) ++ b :: rest)%list
    by (rewrite <- app_assoc; reflexivity).
  rewrite nth_error_middle.
  destruct (strgt (sortKey a) (sortKey b)); [| reflexivity].
  rewrite <- app_assoc. cbn [app].
  rewrite setAt_middle.
  replace (pre ++ b :: b :: rest)%list with ((pre ++ [b]) ++ b :: rest)%list
    by (rewrite <- app_assoc; reflexivity).
  replace (List.length (pre ++ [a])%list) with (List.length (pre ++ [b])%list)
    by (rewrite !length_app; reflexivity).
  rewrite setAt_middle, <- app_assoc. reflexivity.
Qed.

Lemma innerLoop_from (rest : list shift) :
  forall (pre : list shift) (a : shift),
    fold_left compareSwap (seq (List.length pre) (List.length rest))
              (pre ++ a :: rest)
    = (pre ++ bubble a rest)%list.
Proof.
  induction rest as [| b rest IH]; intros pre a; simpl; [reflexivity |].
  rewrite compareSwap_at.
  destruct (strgt (sortKey a) (sortKey b)).
  - specialize (IH (pre ++ [b])%list a).
    rewrite length_app, Nat.add_1_r, <- app_assoc in IH. cbn [app] in IH.
    rewrite IH, <- app_assoc. reflexivity.
  - specialize (IH (pre ++ [a])%list b).
    rewrite length_app, Nat.add_1_r, <- app_assoc in IH. cbn [app] in IH.
    rewrite IH, <- app_assoc. reflexivity.
Qed.

Lemma innerLoop_pass (l : list shift) : innerLoop l = pass l.
Proof.
  unfold innerLoop. destruct l as [| a rest]; [reflexivity |].
  cbn [List.length]. rewrite Nat.sub_succ, Nat.sub_0_r.
  exact (innerLoop_from rest [] a).
Qed.

Lemma repeat_fold {A B : Type} (f : A -> A) (xs : list B) :
  forall l, fold_left (fun arr _ => f arr) xs l = Nat.iter (List.length xs) f l.
Proof.
  induction xs as [| x xs IH]; intros l; [reflexivity |].
  cbn [fold_left List.length]. rewrite IH. symmetry. apply Nat.iter_succ_r.
Qed.

Lemma bubbleSort_passes (l : list shift) :
  bubbleSort l = Nat.iter (List.length l) pass l.
Proof.
  unfold bubbleSort. rewrite repeat_fold, length_seq.
  generalize (List.length l) as n. intros n. revert l.
  induction n as [| n IH]; intros l; [reflexivity |].
  rewrite !Nat.iter_succ, IH. apply innerLoop_pass.
Qed.

(** *** One pass *)

Lemma bubble_perm (rest : list shift) :
  forall a, Permutation (bubble a rest) (a :: rest).
Proof.
  induction rest as [| b rest IH]; intros a; simpl; [reflexivity |].
  destruct (strgt (sortKey a) (sortKey b)).
  - rewrite IH. apply perm_swap.
  - now rewrite IH.
Qed.

Lemma pass_perm (l : list shift) : Permutation (pass l) l.
Proof. destruct l; [reflexivity | apply bubble_perm]. Qed.

(** A pass ends with a greatest element. *)
Lemma bubble_last (rest : list shift) :
  forall a, exists front m,
    bubble a rest = (front ++ [m])%list
    /\ Forall (fun x => keyLe x m) (a :: rest).
Proof.
  induction rest as [| b rest IH]; intros a; simpl.
  - exists [], a. split; [reflexivity |]. constructor; [| constructor].
    unfold keyLe, strgt. apply strlt_irrefl.
  - destruct (strgt (sortKey a) (sortKey b)) eqn:E.
    + destruct (IH a) as (front & m & Hb & Hm). exists (b :: front), m.
      split; [now rewrite Hb |].
      inversion Hm as [| ? ? Ham Hrest]; subst.
      constructor; [exact Ham |]. constructor; [| exact Hrest].
      apply keyLe_trans with a; [| exact Ham].
      unfold keyLe, strgt in *. now apply strlt_asym.
    + destruct (IH b) as (front & m & Hb & Hm). exists (a :: front), m.
      split; [now rewrite Hb |].
      inversion Hm as [| ? ? Hbm Hrest]; subst.
      constructor; [| now constructor].
      now apply keyLe_trans with b.
Qed.

(** An element below a sorted list stays in front of it. *)
Lemma bubble_sorted (sfx : list shift) :
  forall a, Forall (keyLe a) sfx -> StronglySorted keyLe sfx ->
            bubble a sfx = a :: sfx.
Proof.
  induction sfx as [| y sfx IH]; intros a Ha Hs; simpl; [reflexivity |].
  inversion Ha as [| ? ? Hay Ha']; subst.
  inversion Hs as [| ? ? Hs' Hy]; subst.
  unfold keyLe in Hay. rewrite Hay. now rewrite IH.
Qed.

(** A sorted tail that dominates the front is left where it is. *)
Lemma bubble_app_sorted (xs sfx : list shift) :
  forall a,
    Forall (fun x => Forall (keyLe x) sfx) (a :: xs) ->
    StronglySorted keyLe sfx ->
    bubble a (xs ++ sfx) = (bubble a xs ++ sfx)%list.
Proof.
  induction xs as [| b xs IH]; intros a Hd Hs; simpl.
  - inversion Hd; subst. now apply bubble_sorted.
  - inversion Hd as [| ? ? Ha Hd']; subst.
    inversion Hd' as [| ? ? Hb Hd'']; subst.
    destruct (strgt (sortKey a) (sortKey b)).
    + rewrite IH; [reflexivity | now constructor | exact Hs].
    + rewrite IH; [reflexivity | now constructor | exact Hs].
Qed.

Lemma pass_sorted (l : list shift) : StronglySorted keyLe l -> pass l = l.
Proof.
  destruct l as [| a l]; [reflexivity |]. intros H.
  inversion H; subst. now apply bubble_sorted.
Qed.

(** *** All the passes *)

Lemma pass_settles (n k : nat) (l : list shift) :
  settled n k l -> settled n (S k) (pass l).
Proof.
  intros (xs & sfx & -> & Hlen & Hs & Hd). destruct xs as [| a xs].
  - exists [], sfx. cbn [app]. rewrite pass_sorted by assumption.
    repeat split; auto. simpl. lia.
  - cbn [app pass]. rewrite bubble_app_sorted by assumption.
    destruct (bubble_last xs a) as (front & m & Hb & Hm).
    assert (Hin : forall x, In x (front ++ [m]) -> In x (a :: xs)).
    { intros x Hx. rewrite <- Hb in Hx.
      exact (Permutation_in x (bubble_perm xs a) Hx). }
    assert (Hl : List.length (front ++ [m]) = S (List.length xs)).
    { rewrite <- Hb. exact (Permutation_length (bubble_perm xs a)). }
    rewrite Hb, <- app_assoc. exists front, (m :: sfx).
    rewrite length_app in Hl. cbn [List.length] in Hl, Hlen.
    split; [reflexivity |]. split; [lia |]. split.
    + constructor; [exact Hs |].
      rewrite Forall_forall in Hd. apply Hd, Hin, in_or_app. right. now left.
    + rewrite Forall_forall in *. intros x Hx.
      assert (Hx' : In x (a :: xs)) by (apply Hin, in_or_app; now left).
      constructor; [now apply Hm | now apply Hd].
Qed.

Lemma passes_settle (l : list shift) (k : nat) :
  settled (List.length l) k (Nat.iter k pass l).
Proof.
  induction k as [| k IH].
  - exists l, []. rewrite app_nil_r. repeat split.
    + simpl. lia.
    + constructor.
    + apply Forall_forall. intros x _. constructor.
  - rewrite Nat.iter_succ. now apply pass_settles.
Qed.

Lemma bubbleSort_sorted (l : list shift) : StronglySorted keyLe (bubbleSort l).
Proof.
  rewrite bubbleSort_passes.
  destruct (passes_settle l (List.length l)) as (xs & sfx & E & Hlen & Hs & _).
  rewrite E. destruct xs as [| x xs]; [exact Hs |].
  simpl in Hlen. lia.
Qed.

Lemma bubbleSort_perm (l : list shift) : Permutation (bubbleSort l) l.
Proof.
  rewrite bubbleSort_passes. generalize (List.length l) as n.
  induction n as [| n IH]; [reflexivity |].
  rewrite Nat.iter_succ. now rewrite pass_perm.
Qed.

(** *** The shifts that are sorted *)

Lemma filter_none {A : Type} (l : list A) : filter (fun _ => false) l = [].
Proof. induction l as [| x l IH]; [reflexivity | exact IH]. Qed.

(** What persistence.getEmployeeShifts returns are the shifts that an
    assignment pairs with the employee. *)
Lemma getEmployeeShifts_shiftsOf (db : database) (empId : string) :
  getEmployeeShifts db empId = shiftsOf db empId.
Proof.
  unfold getEmployeeShifts, shiftsOf.
  assert (H : forall s,
             existsb (String.eqb (shiftId s))
                     (map asgShiftId
                          (filter (fun a => String.eqb (asgEmployeeId a) empId)
                                  (assignments db)))
             = existsb (fun a => String.eqb (asgEmployeeId a) empId
                                 && String.eqb (asgShiftId a) (shiftId s))
                       (assignments db)).
  { intros s.
    exact (joined_pairAssigned
             (mkFiles [] (shifts db) (assignments db) VUndefined)
             empId (shiftId s)). }
  rewrite <- (filter_ext _ _ H).
  destruct (map asgShiftId
                (filter (fun a => String.eqb (asgEmployeeId a) empId)
                        (assignments db))) as [| i ids]; [| reflexivity].
  cbn [List.length Nat.eqb existsb]. symmetry. apply filter_none.
Qed.

Lemma shiftsOf_In (db : database) (empId : string) (s : shift) :
  In s (shiftsOf db empId)
  <-> In s (shifts db)
      /\ In (empId, shiftId s) (map Spec.pairOf (assignments db)).
Proof.
  pose proof (pairAssigned_In
                (mkFiles [] (shifts db) (assignments db) VUndefined)
                empId (shiftId s)) as H.
  unfold Spec.pairAssigned in H. cbn [assignmentsFile] in H.
  unfold shiftsOf. rewrite filter_In, H. reflexivity.
Qed.

(** *** The order of the keys as date first, start time second *)

Lemma keyLe_dateThenStart (a b : shift) :
  String.length (date a) = String.length (date b) ->
  (keyLe a b <-> dateThenStart a b).
Proof.
  intros Hl. unfold keyLe, dateThenStart, strgt, sortKey.
  rewrite strlt_app_same_length by (symmetry; exact Hl).
  rewrite (strlt_app " " (startTime b) (startTime a)).
  split.
  - intros H. apply orb_false_elim in H as [H1 H2].
    destruct (String.eqb_spec (date b) (date a)) as [E | N].
    + right. split; [now symmetry | exact H2].
    + left. destruct (strlt (date a) (date b)) eqn:F; [reflexivity |].
      elim N. symmetry. now apply strle_antisym.
  - intros [H | [E H]].
    + rewrite (strlt_asym _ _ H).
      destruct (String.eqb_spec (date b) (date a)) as [E | N]; [| reflexivity].
      rewrite E, strlt_irrefl in H. discriminate.
    + now rewrite E, strlt_irrefl, H, andb_false_r.
Qed.

Lemma StronglySorted_within {A : Type} (R R' : A -> A -> Prop) (l : list A) :
  (forall x y, In x l -> In y l -> R x y -> R' x y) ->
  StronglySorted R l -> StronglySorted R' l.
Proof.
  induction l as [| a l IH]; intros Himp Hs; [constructor |].
  inversion Hs as [| ? ? Hs' Ha]; subst. constructor.
  - apply IH; [| exact Hs']. intros x y Hx Hy. apply Himp; now right.
  - rewrite Forall_forall in *. intros y Hy.
    apply Himp; [now left | now right | now apply Ha].
Qed.

Lemma bubbleSort_dateThenStart (l : list shift) (n : nat) :
  Forall (fun s => String.length (date s) = n) l ->
  StronglySorted dateThenStart (bubbleSort l).
Proof.
  intros Hn. apply StronglySorted_within with (R := keyLe);
    [| apply bubbleSort_sorted].
  rewrite Forall_forall in Hn. intros x y Hx Hy H.
  apply keyLe_dateThenStart; [| exact H].
  rewrite (Hn x), (Hn y); [reflexivity | |];
    eapply Permutation_in; try eassumption; apply bubbleSort_perm.
Qed.

End BubbleSort.

(* ------------------------------------------------------------------ *)
(** ** The definitions on sample data *)

Section Samples.

Import Persistence Business Spec Sample Web.

Example number_of_text :
  StringToNumber " 9" = num 9 /\ StringToNumber "9." = num 9
  /\ StringToNumber ".5" = Fin (1 # 2) /\ StringToNumber "" = num 0
  /\ StringToNumber "0x1F" = num 31 /\ StringToNumber "1e" = NaN
  /\ StringToNumber "-Infinity" = Inf true /\ StringToNumber "12px" = NaN.
Proof. repeat split. Qed.

Example minutes_of_texts :
  toMinutes "00:00" = num 0 /\ toMinutes "23:59" = num 1439
  /\ toMinutes "12:60" = NaN /\ toMinutes "12-30" = NaN
  /\ toMinutes "ab:cd" = NaN /\ toMinutes " 9:30" = num 570
  /\ toMinutes ".5:00" = NaN /\ toMinutes "-1:00" = NaN.
Proof. repeat split. Qed.

Example overnight_shift :
  getShiftMinutes "22:00" "02:30" = num 270
  /\ getShiftMinutes "08:00" "08:00" = num 0
  /\ getShiftMinutes "08:00" "07:59" = num 1439
  /\ getShiftMinutes "08:00" "8:30" = NaN.
Proof. repeat split. Qed.

(** Four hours held, four and a half more asked for, eight allowed. *)
Example over_the_cap :
  assignShift "E001" "S003" sampleWorld
  = ("Cannot assign shift: maxDailyHours limit would be exceeded.",
     mkWorld sampleFiles
       [CallFindEmployee "E001"; CallFindShift "S003";
        CallFindAssignment "E001" "S003"; CallGetConfig;
        CallGetShiftMinutes "22:00" "02:30"; CallGetEmployeeShifts "E001";
        CallGetShiftMinutes "09:00" "13:00"]).
Proof. reflexivity. Qed.

Example at_the_cap :
  assignShift "E001" "S002" sampleWorld
  = ("Ok",
     mkWorld (withAssignment sampleFiles "E001" "S002")
       [CallFindEmployee "E001"; CallFindShift "S002";
        CallFindAssignment "E001" "S002"; CallGetConfig;
        CallGetShiftMinutes "13:00" "17:00"; CallGetEmployeeShifts "E001";
        CallGetShiftMinutes "09:00" "13:00"; CallAddAssignment "E001" "S002"]).
Proof. reflexivity. Qed.

(** A cap of seven hours and a half is 450 minutes; one of 7.99 hours is
    floored from 479.4 to 479. *)
Example fractional_cap :
  fst (assignShift "E001" "S002"
         (mkWorld (mkFiles (employeesFile sampleFiles) (shiftsFile sampleFiles)
                           (assignmentsFile sampleFiles) (VStr "7.5")) []))
  = "Cannot assign shift: maxDailyHours limit would be exceeded."
  /\ floor (jsmul (StringToNumber "7.99") (num 60)) = num 479.
Proof. split; vm_compute; reflexivity. Qed.

(** Numbers are doubles.  The text 0.1 is read as the double next to one
    tenth, 1e400 as Infinity and 1e-400 as 0; above 2^53 only every other
    integer is a double, and a tie goes to the even significand. *)
Example numbers_are_doubles :
  StringToNumber "0.1" = Fin (3602879701896397 # 36028797018963968)
  /\ StringToNumber "1e400" = Inf false
  /\ StringToNumber "-1e400" = Inf true
  /\ StringToNumber "1e-400" = num 0
  /\ StringToNumber "9007199254740993" = num 9007199254740992
  /\ StringToNumber "9007199254740995" = num 9007199254740996
  /\ StringToNumber "0x20000000000001" = num 9007199254740992
  /\ StringToNumber "1.7976931348623157e308" = num (2 ^ 1024 - 2 ^ 971)
  /\ StringToNumber "1.7976931348623159e308" = Inf false
  /\ StringToNumber "5e-324" = Fin (1 # Pos.pow 2 1074)
  /\ StringToNumber "2e-324" = num 0.
Proof. repeat split; vm_compute; reflexivity. Qed.

(** The product maxDailyHours * 60 is a double too: 4.1 hours are
    245.99999999999997 minutes, floored to 245, so that an employee without
    shifts is refused one of 246 minutes; 5.333333333333333 hours are 320
    minutes, so that 80 minutes on top of 240 are accepted. *)
Example rounded_cap :
  jsmul (StringToNumber "4.1") (num 60)
  = Fin (8655355533852671 # 35184372088832)
  /\ floor (jsmul (StringToNumber "4.1") (num 60)) = num 245
  /\ jsmul (StringToNumber "5.333333333333333") (num 60) = num 320
  /\ fst (assignShift "E002" "S003"
            (mkWorld (fractionalFiles (VStr "4.1")) []))
     = "Cannot assign shift: maxDailyHours limit would be exceeded."
  /\ fst (assignShift "E001" "S002"
            (mkWorld (fractionalFiles (VStr "5.333333333333333")) []))
     = "Ok".
Proof. repeat split; vm_compute; reflexivity. Qed.

Example settings_read :
  readSettingsFrom (VNum (num 6)) = mkSettings (num 6)
  /\ readSettingsFrom (VNum (Fin (41 # 10)))
     = mkSettings (Fin (2308094809027379 # 562949953421312))
  /\ readSettingsFrom (VNum (Fin (1 # 10 ^ 400))) = mkSettings (num 8)
  /\ readSettingsFrom (VNum (num (10 ^ 400))) = mkSettings (num 8)
  /\ readSettingsFrom (VStr "7.5") = mkSettings (Fin (15 # 2))
  /\ readSettingsFrom VUndefined = mkSettings (num 8)
  /\ readSettingsFrom (VNum (num 0)) = mkSettings (num 8)
  /\ readSettingsFrom (VNum (Inf false)) = mkSettings (num 8)
  /\ readSettingsFrom (VStr "eight") = mkSettings (num 8)
  /\ readSettingsFrom VNull = mkSettings (num 8)
  /\ readSettingsFrom (VBool true) = mkSettings (num 1).
Proof. repeat split. Qed.

Example phone_pattern :
  phonePattern "1234-5678" = true /\ phonePattern "1234-567" = false
  /\ phonePattern "1234-56789" = false /\ phonePattern "12345678" = false
  /\ phonePattern "1234_5678" = false /\ phonePattern "" = false.
Proof. repeat split. Qed.

Example one_pass :
  map shiftId (innerLoop (shifts sampleDatabase)) = ["S003"; "S001"; "S002"].
Proof. reflexivity. Qed.

End Samples.

(* ------------------------------------------------------------------ *)
(** ** The order of texts on well-formed times *)

Section ClockOrder.

Lemma nat_of_digitChar (a : Z) :
  0 <= a <= 9 -> nat_of_ascii (digitChar a) = (48 + Z.to_nat a)%nat.
Proof.
  intros Ha. apply digit_cases in Ha.
  repeat (destruct Ha as [Ha | Ha]; [subst a; reflexivity |]).
  subst a. reflexivity.
Qed.

(** On two digits, a colon and two digits, the order of texts is the order
    of the numbers written, digit by digit. *)
Lemma strlt_clockText (a b c d a' b' c' d' : Z) :
  0 <= a <= 9 -> 0 <= b <= 9 -> 0 <= c <= 9 -> 0 <= d <= 9 ->
  0 <= a' <= 9 -> 0 <= b' <= 9 -> 0 <= c' <= 9 -> 0 <= d' <= 9 ->
  strlt (clockText a b c d) (clockText a' b' c' d')
  = (1000 * a + 100 * b + 10 * c + d <? 1000 * a' + 100 * b' + 10 * c' + d').
Proof.
  intros Ha Hb Hc Hd Ha' Hb' Hc' Hd'. unfold clockText. cbn [strlt].
  rewrite !nat_of_digitChar by assumption.
  rewrite Nat.ltb_irrefl.
  repeat match goal with
         | |- context [(?x <? ?y)%nat] => destruct (Nat.ltb_spec x y)
         end;
    symmetry; (apply Z.ltb_lt || apply Z.ltb_ge); lia.
Qed.

(** The minutes of a well-formed time order as its text does. *)
Lemma strlt_minutes (a b c d a' b' c' d' m m' : Z) :
  0 <= a <= 9 -> 0 <= b <= 9 -> 0 <= c <= 9 -> 0 <= d <= 9 ->
  0 <= a' <= 9 -> 0 <= b' <= 9 -> 0 <= c' <= 9 -> 0 <= d' <= 9 ->
  toMinutes (clockText a b c d) = num m ->
  toMinutes (clockText a' b' c' d') = num m' ->
  strlt (clockText a b c d) (clockText a' b' c' d') = (m <? m').
Proof.
  intros Ha Hb Hc Hd Ha' Hb' Hc' Hd' Hm Hm'.
  rewrite strlt_clockText by assumption.
  rewrite toMinutes_clockText in Hm, Hm' by assumption.
  destruct ((10 * a + b <=? 23) && (10 * c + d <=? 59)) eqn:E;
    [| discriminate].
  destruct ((10 * a' + b' <=? 23) && (10 * c' + d' <=? 59)) eqn:E';
    [| discriminate].
  apply num_inj in Hm, Hm'.
  apply andb_prop in E as [E1 E2]. apply andb_prop in E' as [E1' E2'].
  apply Z.leb_le in E1, E2, E1', E2'.
  destruct (Z.ltb_spec m m'); [apply Z.ltb_lt | apply Z.ltb_ge]; lia.
Qed.

End ClockOrder.

(* ------------------------------------------------------------------ *)
(** ** The search loops *)

Section Lookups.

Import Persistence.

Lemma firstEmployee_Some (l : list employee) (empId : string) (e : employee) :
  firstEmployee l empId = Some e ->
  employeeId e = empId
  /\ exists before after,
       l = (before ++ e :: after)%list
       /\ forall x, In x before -> employeeId x <> empId.
Proof.
  induction l as [| x l IH]; simpl; [discriminate |].
  destruct (String.eqb_spec (employeeId x) empId) as [E | N]; intros H.
  - injection H as <-. split; [exact E |].
    exists [], l. split; [reflexivity | intros y []].
  - destruct (IH H) as (He & before & after & -> & Hb). split; [exact He |].
    exists (x :: before), after. split; [reflexivity |].
    intros y [<- | Hy]; [exact N | now apply Hb].
Qed.

Lemma firstEmployee_None (l : list employee) (empId : string) :
  firstEmployee l empId = None <-> forall x, In x l -> employeeId x <> empId.
Proof.
  induction l as [| x l IH]; simpl.
  - split; [intros _ y [] | reflexivity].
  - destruct (String.eqb_spec (employeeId x) empId) as [E | N].
    + split; [discriminate |]. intros H. elim (H x); auto.
    + rewrite IH. split.
      * intros H y [<- | Hy]; [exact N | now apply H].
      * intros H y Hy. apply H. now right.
Qed.

Lemma firstShift_Some (l : list shift) (shftId : string) (s : shift) :
  firstShift l shftId = Some s ->
  shiftId s = shftId
  /\ exists before after,
       l = (before ++ s :: after)%list
       /\ forall x, In x before -> shiftId x <> shftId.
Proof.
  induction l as [| x l IH]; simpl; [discriminate |].
  destruct (String.eqb_spec (shiftId x) shftId) as [E | N]; intros H.
  - injection H as <-. split; [exact E |].
    exists [], l. split; [reflexivity | intros y []].
  - destruct (IH H) as (He & before & after & -> & Hb). split; [exact He |].
    exists (x :: before), after. split; [reflexivity |].
    intros y [<- | Hy]; [exact N | now apply Hb].
Qed.

Lemma firstShift_None (l : list shift) (shftId : string) :
  firstShift l shftId = None <-> forall x, In x l -> shiftId x <> shftId.
Proof.
  induction l as [| x l IH]; simpl.
  - split; [intros _ y [] | reflexivity].
  - destruct (String.eqb_spec (shiftId x) shftId) as [E | N].
    + split; [discriminate |]. intros H. elim (H x); auto.
    + rewrite IH. split.
      * intros H y [<- | Hy]; [exact N | now apply H].
      * intros H y Hy. apply H. now right.
Qed.

Lemma firstAssignment_Some (l : list assignment) (empId shftId : string)
  (a : assignment) :
  firstAssignment l empId shftId = Some a ->
  In a l /\ asgEmployeeId a = empId /\ asgShiftId a = shftId.
Proof.
  induction l as [| x l IH]; simpl; [discriminate |].
  destruct (String.eqb_spec (asgEmployeeId x) empId) as [E | N];
    destruct (String.eqb_spec (asgShiftId x) shftId) as [E' | N']; simpl;
    intros H; try (destruct (IH H) as (Hi & He & Hs); now auto).
  injection H as <-. auto.
Qed.

Lemma firstAssignment_None (l : list assignment) (empId shftId : string) :
  firstAssignment l empId shftId = None
  <-> forall x, In x l -> ~ (asgEmployeeId x = empId /\ asgShiftId x = shftId).
Proof.
  induction l as [| x l IH]; simpl.
  - split; [intros _ y [] | reflexivity].
  - destruct (String.eqb_spec (asgEmployeeId x) empId) as [E | N];
      destruct (String.eqb_spec (asgShiftId x) shftId) as [E' | N']; simpl;
      try (rewrite IH; split;
           [intros H y [<- | Hy]; [tauto | now apply H]
           | intros H y Hy; apply H; now right]).
    split; [discriminate |]. intros H. elim (H x); auto.
Qed.

Lemma firstAssignment_last (l : list assignment) (empId shftId : string) :
  firstAssignment l empId shftId = None ->
  firstAssignment (l ++ [mkAssignment empId shftId]) empId shftId
  = Some (mkAssignment empId shftId).
Proof.
  induction l as [| x l IH]; simpl.
  - intros _. now rewrite !String.eqb_refl.
  - destruct (String.eqb (asgEmployeeId x) empId && String.eqb (asgShiftId x) shftId);
      [discriminate | exact IH].
Qed.

End Lookups.

(* ------------------------------------------------------------------ *)
(** ** The schedule of an employee and what a successful call adds to it *)

Section Schedules.

Import Persistence Business Spec Spec2.

(** What the outcome "assigned" says about the files. *)
Lemma workflow_Assigned_facts (fs : files) (empId shftId : string) :
  workflow fs empId shftId = Assigned ->
  exists sh cap,
    employeeExists fs empId = true
    /\ shiftNamed fs shftId = Some sh
    /\ pairAssigned fs empId shftId = false
    /\ configured fs = Fin cap
    /\ validDuration sh = true
    /\ forallb validDuration (sameDayShifts fs empId (date sh)) = true
    /\ exceedsCap (totalWith fs empId sh) cap = false.
Proof.
  unfold workflow.
  destruct (employeeExists fs empId) eqn:He; cbn [negb]; [| discriminate].
  destruct (shiftNamed fs shftId) as [sh |] eqn:Hs; [| discriminate].
  destruct (pairAssigned fs empId shftId) eqn:Hp; [discriminate |].
  destruct (configured fs) as [| sg | cap] eqn:Hc; try discriminate.
  destruct (Qltb 0 cap); cbn [negb]; [| discriminate].
  destruct (validDuration sh) eqn:Hv; cbn [negb]; [| discriminate].
  destruct (forallb validDuration (sameDayShifts fs empId (date sh))) eqn:Ha;
    cbn [negb]; [| discriminate].
  destruct (exceedsCap (totalWith fs empId sh) cap) eqn:E; [discriminate |].
  intros _. exists sh, cap. repeat (split; [reflexivity || assumption |]).
  exact E.
Qed.

Lemma pairAssigned_withAssignment (fs : files) (empId shftId e s : string) :
  pairAssigned (withAssignment fs empId shftId) e s
  = pairAssigned fs e s || (String.eqb empId e && String.eqb shftId s).
Proof.
  unfold pairAssigned, withAssignment. cbn [assignmentsFile].
  rewrite existsb_app. simpl. now rewrite orb_false_r.
Qed.

(** Durations summed over two disjoint selections of the shifts of a day. *)
Lemma durations_split (day : string) (p q : shift -> bool) (l : list shift) :
  (forall x, In x l -> p x = true -> q x = false) ->
  (fold_right Qplus 0
     (map durationOf
          (filter (fun s => String.eqb (date s) day)
                  (filter (fun s => p s || q s) l)))
   == fold_right Qplus 0
        (map durationOf
             (filter (fun s => String.eqb (date s) day) (filter p l)))
      + fold_right Qplus 0
          (map durationOf
               (filter (fun s => String.eqb (date s) day) (filter q l))))%Q.
Proof.
  induction l as [| x l IH]; intros Hd; simpl; [ring |].
  assert (IH' := IH (fun y Hy => Hd y (or_intror Hy))). clear IH.
  destruct (p x) eqn:Hp; simpl.
  - rewrite (Hd x (or_introl eq_refl) Hp).
    destruct (String.eqb (date x) day); simpl; rewrite IH'; ring.
  - destruct (q x); simpl; [| exact IH'].
    destruct (String.eqb (date x) day); simpl; rewrite IH'; ring.
Qed.

(** With identifiers that are unique, the shifts selected by an identifier
    are the one the search finds. *)
Lemma filter_unique_shift (l : list shift) (shftId : string) (sh : shift) :
  NoDup (map shiftId l) -> firstShift l shftId = Some sh ->
  filter (fun s => String.eqb shftId (shiftId s)) l = [sh].
Proof.
  induction l as [| x l IH]; simpl; [discriminate |].
  intros Hn Hf. inversion Hn as [| ? ? Hx Hn']; subst.
  rewrite (String.eqb_sym shftId). 
  destruct (String.eqb_spec (shiftId x) shftId) as [E | N].
  - injection Hf as <-. f_equal.
    assert (G : forall y, In y l -> String.eqb shftId (shiftId y) = false).
    { intros y Hy. apply String.eqb_neq. intros Ey. apply Hx.
      rewrite E, Ey. now apply in_map. }
    clear - G. induction l as [| y l IH]; simpl; [reflexivity |].
    rewrite (G y) by now left. apply IH. intros z Hz. apply G. now right.
  - now apply IH.
Qed.

(** The minutes of a day after the pair has been appended. *)
Lemma scheduledMinutes_withAssignment (fs : files) (empId shftId : string)
  (sh : shift) (e day : string) :
  shiftIdsUnique fs ->
  shiftNamed fs shftId = Some sh ->
  pairAssigned fs empId shftId = false ->
  (scheduledMinutes (withAssignment fs empId shftId) e day
   == scheduledMinutes fs e day
      + (if String.eqb empId e && String.eqb (date sh) day
         then durationOf sh else 0))%Q.
Proof.
  intros Hu Hs Hp. unfold scheduledMinutes, sameDayShifts, assignedShifts.
  change (shiftsFile (withAssignment fs empId shftId)) with (shiftsFile fs).
  rewrite (filter_ext (fun s => pairAssigned (withAssignment fs empId shftId)
                                             e (shiftId s))
                      (fun s => pairAssigned fs e (shiftId s)
                                  || (String.eqb empId e
                                      && String.eqb shftId (shiftId s))))
    by (intros s; apply pairAssigned_withAssignment).
  destruct (String.eqb_spec empId e) as [<- | N]; cbn [andb].
  - rewrite durations_split.
    + rewrite shiftNamed_first in Hs.
      rewrite (filter_unique_shift _ _ _ Hu Hs). simpl.
      destruct (String.eqb (date sh) day); simpl; ring.
    + intros x _ Hx. apply String.eqb_neq. intros E. congruence.
  - rewrite (filter_ext (fun s => pairAssigned fs e (shiftId s) || false)
                        (fun s => pairAssigned fs e (shiftId s)))
      by (intros s; apply orb_false_r).
    ring.
Qed.

(** Without assignments nobody is scheduled. *)
Lemma scheduledMinutes_unassigned (fs : files) (empId day : string) :
  assignmentsFile fs = [] -> scheduledMinutes fs empId day = 0%Q.
Proof.
  intros Hn. unfold scheduledMinutes, sameDayShifts, assignedShifts, pairAssigned.
  rewrite Hn. cbn [existsb].
  induction (shiftsFile fs) as [| s l IH]; [reflexivity | exact IH].
Qed.

End Schedules.

(* ------------------------------------------------------------------ *)
(** ** The order of the keys within one date *)

Section KeysAndMinutes.

Import Web Spec2.

Lemma keyLe_sameDayByMinutes (x y : shift) : keyLe x y -> sameDayByMinutes x y.
Proof.
  unfold keyLe, strgt, sortKey. intros Hk Hd Hx Hy m m' Hm Hm'.
  rewrite Hd, strlt_app, (strlt_app " ") in Hk.
  destruct Hx as (a & b & c & d & Ha & Hb & Hc & Hdd & Ex).
  destruct Hy as (a' & b' & c' & d' & Ha' & Hb' & Hc' & Hd' & Ey).
  rewrite Ex in Hm. rewrite Ey in Hm'. rewrite Ex, Ey in Hk.
  rewrite (strlt_minutes a' b' c' d' a b c d m' m) in Hk by assumption.
  now apply Z.ltb_ge in Hk.
Qed.

End KeysAndMinutes.

(* ------------------------------------------------------------------ *)
(** ** Printing an integer and reading it back *)

Section PrintAndRead.

Import Web Staff Spec2.

Lemma str_app_assoc (s t u : string) : ((s ++ t) ++ u = s ++ (t ++ u))%string.
Proof. induction s as [| c s IH]; simpl; [reflexivity | now rewrite IH]. Qed.

Lemma str_app_nil_r (s : string) : (s ++ "")%string = s.
Proof. induction s as [| c s IH]; simpl; [reflexivity | now rewrite IH]. Qed.

Lemma str_length_app (s t : string) :
  String.length (s ++ t) = (String.length s + String.length t)%nat.
Proof. induction s as [| c s IH]; simpl; [reflexivity | now rewrite IH]. Qed.

Lemma substring_all (s : string) : String.substring 0 (String.length s) s = s.
Proof. induction s as [| c s IH]; simpl; [reflexivity | now rewrite IH]. Qed.
















End PrintAndRead.

(* ------------------------------------------------------------------ *)
(** ** The largest numeric identifier and the identifier made from it *)

Section NewIdentifier.

Import Web Staff Spec Spec2.







End NewIdentifier.

(* ------------------------------------------------------------------ *)
(** ** Appending an employee *)

Section Appending.

Import Persistence Web Staff Spec2.


Lemma length_repeatChar (k : nat) (c : ascii) :
  String.length (repeatChar k c) = k.
Proof. induction k as [| k IH]; simpl; [reflexivity | now rewrite IH]. Qed.


Lemma length_padEnd (n : nat) (s : string) :
  String.length (padEnd n s) = Nat.max n (String.length s).
Proof. unfold padEnd. rewrite str_length_app, length_repeatChar. lia. Qed.



End Appending.

(* ------------------------------------------------------------------ *)
(** ** Updating an employee, trimming, the phone pattern *)

Section Editing.

Import Persistence Web Staff Spec2.
Local Open Scope list_scope.

Lemma updateOne_find (docs : list employee) (empId name phone other : string) :
  firstEmployee (updateOne docs empId name phone) other
  = if String.eqb other empId
    then match firstEmployee docs empId with
         | Some e => Some (mkEmployee (employeeId e) name phone)
         | None => None
         end
    else firstEmployee docs other.
Proof.
  induction docs as [| x docs IH]; simpl.
  - now destruct (String.eqb other empId).
  - destruct (String.eqb_spec (employeeId x) empId) as [E | N]; simpl.
    + destruct (String.eqb_spec other empId) as [E1 | N1];
        destruct (String.eqb_spec (employeeId x) other) as [E2 | N2];
        try reflexivity; congruence.
    + rewrite IH.
      destruct (String.eqb_spec other empId) as [E1 | N1];
        destruct (String.eqb_spec (employeeId x) other) as [E2 | N2];
        try reflexivity; congruence.
Qed.



Lemma trimStart_blank (s : string) :
  allWhiteSpace s = true -> trimStart s = EmptyString.
Proof.
  induction s as [| c s IH]; simpl; [reflexivity |].
  intros H. apply andb_prop in H as [Hc Hs]. rewrite Hc. now apply IH.
Qed.

Lemma trimEnd_blank (s : string) :
  trimEnd s = EmptyString <-> allWhiteSpace s = true.
Proof.
  induction s as [| c s IH]; simpl; [tauto |].
  destruct (trimEnd s) as [| d t].
  - destruct (isStrWhiteSpace c); simpl.
    + split; intros _; [now apply IH | reflexivity].
    + split; discriminate.
  - split; [discriminate |]. intros H. apply andb_prop in H as [_ Hs].
    apply IH in Hs. discriminate.
Qed.

Lemma trimStart_cases (s : string) :
  (trimStart s = EmptyString /\ allWhiteSpace s = true)
  \/ (exists c r, trimStart s = String c r /\ isStrWhiteSpace c = false).
Proof.
  induction s as [| c s IH]; simpl; [now left |].
  destruct (isStrWhiteSpace c) eqn:E; simpl.
  - exact IH.
  - right. now exists c, s.
Qed.

(** trim leaves nothing exactly of the texts made of white space. *)
Lemma trim_blank (s : string) :
  trim s = EmptyString <-> allWhiteSpace s = true.
Proof.
  unfold trim. split.
  - intros H. destruct (trimStart_cases s) as [[_ Hs] | (c & r & E & Hc)];
      [exact Hs |].
    rewrite E in H. apply trimEnd_blank in H. simpl in H.
    rewrite Hc in H. discriminate.
  - intros H. now rewrite (trimStart_blank s H).
Qed.

Lemma length_zero_empty (s : string) :
  (String.length s =? 0)%nat = true <-> s = EmptyString.
Proof. destruct s; simpl; split; congruence. Qed.

(** What digitsThen accepts. *)
Lemma digitsThen_spec (n : nat) (k : string -> bool) :
  forall s,
    digitsThen n s k = true
    <-> exists a r,
          s = (a ++ r)%string /\ String.length a = n
          /\ allDigits a = true /\ k r = true.
Proof.
  induction n as [| n IH]; intros s; cbn [digitsThen].
  - split.
    + intros H. exists EmptyString, s. now repeat split.
    + intros (a & r & -> & Hl & _ & Hk). destruct a; [exact Hk | discriminate].
  - destruct s as [| c s].
    + split; [discriminate |].
      intros (a & r & E & Hl & _). destruct a; discriminate.
    + rewrite andb_true_iff, IH. split.
      * intros (Hc & a & r & -> & Hl & Ha & Hk).
        exists (String c a), r. simpl. rewrite Hc, Ha, Hl. now repeat split.
      * intros (a & r & E & Hl & Ha & Hk).
        destruct a as [| c' a]; [discriminate |].
        simpl in E, Hl, Ha. injection E as <- ->.
        apply andb_prop in Ha as [Hc Ha]. split; [exact Hc |].
        exists a, r. repeat split; auto.
Qed.

(** What the phone pattern accepts: four digits, a dash, four digits. *)
Lemma phonePattern_spec (phone : string) :
  phonePattern phone = true <-> phoneShape phone.
Proof.
  unfold phonePattern, phoneShape. rewrite digitsThen_spec. split.
  - intros (a & r & -> & Hl & Ha & Hk).
    destruct r as [| c r]; [discriminate |].
    apply andb_prop in Hk as [Hc Hk]. apply Ascii.eqb_eq in Hc. subst c.
    apply digitsThen_spec in Hk. destruct Hk as (b & e & -> & Hlb & Hb & He).
    apply String.eqb_eq in He. subst e. rewrite str_app_nil_r.
    exists a, b. now repeat split.
  - intros (a & b & -> & Hla & Hlb & Ha & Hb).
    exists a, (String "-" b). repeat split; auto.
    rewrite Ascii.eqb_refl. cbn [andb]. apply digitsThen_spec.
    exists b, EmptyString. rewrite str_app_nil_r. now repeat split.
Qed.

(** *** The sort keeps shifts of one key in their order *)

Lemma bubble_stable (k : string) (rest : list shift) :
  forall a,
    filter (fun s => String.eqb (sortKey s) k) (bubble a rest)
    = filter (fun s => String.eqb (sortKey s) k) (a :: rest).
Proof.
  induction rest as [| b rest IH]; intros a; [reflexivity |].
  cbn [bubble]. destruct (strgt (sortKey a) (sortKey b)) eqn:E.
  - cbn [filter]. rewrite IH. cbn [filter].
    destruct (String.eqb_spec (sortKey a) k) as [Ea | _]; [| reflexivity].
    destruct (String.eqb_spec (sortKey b) k) as [Eb | _]; [| reflexivity].
    unfold strgt in E. rewrite Ea, Eb, strlt_irrefl in E. discriminate.
  - cbn [filter]. now rewrite IH.
Qed.

Lemma pass_stable (k : string) (l : list shift) :
  filter (fun s => String.eqb (sortKey s) k) (pass l)
  = filter (fun s => String.eqb (sortKey s) k) l.
Proof. destruct l; [reflexivity | apply bubble_stable]. Qed.

Lemma passes_stable (k : string) (n : nat) (l : list shift) :
  filter (fun s => String.eqb (sortKey s) k) (Nat.iter n pass l)
  = filter (fun s => String.eqb (sortKey s) k) l.
Proof.
  induction n as [| n IH]; [reflexivity |].
  now rewrite Nat.iter_succ, pass_stable.
Qed.

Lemma passes_sorted (n : nat) (l : list shift) :
  StronglySorted keyLe l -> Nat.iter n pass l = l.
Proof.
  intros H. induction n as [| n IH]; [reflexivity |].
  rewrite Nat.iter_succ, IH. now apply pass_sorted.
Qed.

End Editing.

(* ------------------------------------------------------------------ *)
(** ** Columns of a padded line *)

Section Columns.

Import Staff.

Lemma substring_front (a b : string) :
  String.substring 0 (String.length a) (a ++ b) = a.
Proof. induction a as [| c a IH]; simpl; [now destruct b | now rewrite IH]. Qed.

Lemma substring_behind (a b : string) (n : nat) :
  String.substring (String.length a) n (a ++ b) = String.substring 0 n b.
Proof. induction a as [| c a IH]; simpl; [reflexivity | exact IH]. Qed.

Lemma padEnd_front (n : nat) (s rest : string) :
  String.substring 0 (String.length s) (padEnd n s ++ rest) = s.
Proof. unfold padEnd. rewrite str_app_assoc. apply substring_front. Qed.

End Columns.

(* ------------------------------------------------------------------ *)
(** ** The properties of the specification *)

Section TimeClaims.

(** C4.  On a text in the format "HH:MM" (two decimal digits, a colon, two
    decimal digits, the hour at most 23 and the minute at most 59) toMinutes
    gives the minutes since midnight, between 0 and 1439, and whatever the
    text toMinutes gives NaN or an integer of that range;
    toMinutes("09:30") = 570 while "9:30" and "24:00" give NaN.  But NaN is
    not given for every text outside the format: the two parts go through
    Number(...), which takes a sign, a blank or a point next to a digit, and
    nothing but blanks for 0, so that "+9:30", " 9:30" and "9.:30" give 570,
    "-0:00" and "  :  " give 0, and "1.:5 " gives 65. *)
Theorem toMinutes_accepts_more_than_times :
  (forall t m, clockMinutes t = Some m -> toMinutes t = num m /\ 0 <= m <= 1439)
  /\ (forall t, toMinutes t = NaN -> clockMinutes t = None)
  /\ (forall t,
        toMinutes t = NaN \/ exists m, toMinutes t = num m /\ 0 <= m <= 1439)
  /\ (clockMinutes "09:30" = Some 570 /\ toMinutes "09:30" = num 570)
  /\ (clockMinutes "9:30" = None /\ toMinutes "9:30" = NaN)
  /\ (clockMinutes "24:00" = None /\ toMinutes "24:00" = NaN)
  /\ (clockMinutes "+9:30" = None /\ toMinutes "+9:30" = num 570)
  /\ (clockMinutes " 9:30" = None /\ toMinutes " 9:30" = num 570)
  /\ (clockMinutes "9.:30" = None /\ toMinutes "9.:30" = num 570)
  /\ (clockMinutes "-0:00" = None /\ toMinutes "-0:00" = num 0)
  /\ (clockMinutes "  :  " = None /\ toMinutes "  :  " = num 0)
  /\ (clockMinutes "1.:5 " = None /\ toMinutes "1.:5 " = num 65).
Proof.
  split; [exact toMinutes_clockMinutes |].
  split.
  { intros t H. destruct (clockMinutes t) as [m |] eqn:E; [| reflexivity].
    destruct (toMinutes_clockMinutes t m E) as [Hm _].
    rewrite Hm in H. discriminate. }
  split; [exact toMinutes_range |].
  repeat split; vm_compute; reflexivity.
Qed.

Lemma toMinutes_accepts_more_than_times_witness :
  toMinutes "23:59" = num 1439 /\ 0 <= 1439 <= 1439.
Proof.
  apply (proj1 toMinutes_accepts_more_than_times "23:59" 1439). reflexivity.
Defined.

(** C5. getShiftMinutes gives end minus start in minutes, with 1440 added
    when end is earlier than start, and NaN as soon as toMinutes rejects one
    of the two texts; every pair of texts falls under one of the two cases.
    getShiftMinutes("22:00", "02:00") = 240 and
    getShiftMinutes("09:00", "17:00") = 480. *)
Theorem getShiftMinutes_spec :
  (forall a b s e,
     toMinutes a = num s -> toMinutes b = num e ->
     getShiftMinutes a b = num (if e <? s then e + 1440 - s else e - s))
  /\ (forall a b,
        toMinutes a = NaN \/ toMinutes b = NaN -> getShiftMinutes a b = NaN)
  /\ (forall a b,
        (toMinutes a = NaN \/ toMinutes b = NaN)
        \/ (exists s e, toMinutes a = num s /\ toMinutes b = num e))
  /\ getShiftMinutes "22:00" "02:00" = num 240
  /\ getShiftMinutes "09:00" "17:00" = num 480.
Proof.
  split; [exact getShiftMinutes_num |].
  split; [exact getShiftMinutes_NaN |].
  split; [| split; reflexivity].
  intros a b. destruct (getShiftMinutes_cases a b)
    as [[H _] | (s & e & Ha & Hb & _)]; [now left |].
  right. now exists s, e.
Qed.

Lemma getShiftMinutes_spec_witness :
  getShiftMinutes "22:00" "02:00" = num (120 + 1440 - 1320)
  /\ getShiftMinutes "xx:00" "02:00" = NaN.
Proof.
  split.
  - apply (proj1 getShiftMinutes_spec "22:00" "02:00" 1320 120); reflexivity.
  - apply (proj1 (proj2 getShiftMinutes_spec) "xx:00" "02:00").
    left. reflexivity.
Defined.

End TimeClaims.

Section WorkflowClaims.

Import Persistence Business Spec Sample.

(** C1, as the code has it.  Take an employee and a shift that exist, a
    pair that is not yet assigned and a new shift with a valid positive
    duration.  The shifts already assigned to the employee on the date of the
    new shift are those of shifts.json that assignments.json pairs with the
    employee and that carry that date.  When each of them has a valid
    positive duration, assignShift rejects the call with the message of the
    cap, leaving the files as they are, exactly when their minutes plus the
    minutes of the new shift exceed maxDailyHours * 60, the product as
    JavaScript computes it; otherwise it appends the pair and answers "Ok",
    in particular when the two are equal.  When the exact product is an
    integer below 2^53, as for whole and half hours, the product computed is
    that integer.  When one of the shifts already assigned on that date has
    no valid positive duration the call is rejected with "Invalid shift time
    format" and nothing is written. *)
Theorem daily_cap_decides (fs : files) (tr : list call)
  (empId shftId : string) (sh : shift) (cap : Q) :
  employeeExists fs empId = true ->
  shiftNamed fs shftId = Some sh ->
  pairAssigned fs empId shftId = false ->
  configured fs = Fin cap ->
  validDuration sh = true ->
  (forall s day,
     In s (sameDayShifts fs empId day)
     <-> In s (shiftsFile fs)
         /\ In (empId, shiftId s) (map pairOf (assignmentsFile fs))
         /\ date s = day)
  /\ (forallb validDuration (sameDayShifts fs empId (date sh)) = true ->
      (exceedsCap (totalWith fs empId sh) cap = true
       <-> fst (assignShift empId shftId (mkWorld fs tr)) <> "Ok")
      /\ (exceedsCap (totalWith fs empId sh) cap = true ->
          fst (assignShift empId shftId (mkWorld fs tr))
          = "Cannot assign shift: maxDailyHours limit would be exceeded."
          /\ store (snd (assignShift empId shftId (mkWorld fs tr))) = fs)
      /\ (exceedsCap (totalWith fs empId sh) cap = false ->
          fst (assignShift empId shftId (mkWorld fs tr)) = "Ok"
          /\ store (snd (assignShift empId shftId (mkWorld fs tr)))
             = withAssignment fs empId shftId)
      /\ (forall product,
            capMinutes cap = Fin product ->
            (totalWith fs empId sh == product)%Q ->
            fst (assignShift empId shftId (mkWorld fs tr)) = "Ok"
            /\ store (snd (assignShift empId shftId (mkWorld fs tr)))
               = withAssignment fs empId shftId))
  /\ (forall n,
        (cap * 60 == inject_Z n)%Q -> Z.abs n < 2 ^ 53 ->
        capMinutes cap = num n
        /\ (exceedsCap (totalWith fs empId sh) cap = true
            <-> (cap * 60 < totalWith fs empId sh)%Q))
  /\ (forallb validDuration (sameDayShifts fs empId (date sh)) = false ->
      fst (assignShift empId shftId (mkWorld fs tr))
      = "Invalid shift time format"
      /\ store (snd (assignShift empId shftId (mkWorld fs tr))) = fs).
Proof.
  intros Hemp Hsh Hpair Hcap Hnew.
  rewrite assignShift_message, assignShift_store. cbn [store].
  assert (Hpos : Qltb 0 cap = true).
  { destruct (readSettingsFrom_positive (configMaxDailyHours fs)) as (q & Eq & Hq).
    unfold configured in Hcap. rewrite Hcap in Eq. injection Eq as ->.
    now apply Qltb_lt. }
  assert (Hw : workflow fs empId shftId
               = if negb (forallb validDuration
                                  (sameDayShifts fs empId (date sh)))
                 then InvalidShiftTime
                 else if exceedsCap (totalWith fs empId sh) cap
                      then CapExceeded else Assigned).
  { unfold workflow. now rewrite Hemp, Hsh, Hpair, Hcap, Hpos, Hnew. }
  unfold storeAfter. rewrite Hw. clear Hw.
  split; [| split; [| split]].
  - intros s day. unfold sameDayShifts, assignedShifts.
    rewrite !filter_In, pairAssigned_In, String.eqb_eq. tauto.
  - intros Hold. rewrite Hold. cbn [negb].
    destruct (exceedsCap (totalWith fs empId sh) cap) eqn:E; cbn [message].
    + split; [split; [intros _; discriminate | reflexivity] |].
      split; [intros _; split; reflexivity |].
      split; [discriminate |].
      intros product Hp Heq. exfalso.
      unfold exceedsCap, jsgt in E. rewrite Hp, jslt_Fin in E.
      apply Qltb_lt in E. rewrite Heq in E. exact (Qlt_irrefl _ E).
    + split; [split; [discriminate | intros H; now elim H] |].
      split; [discriminate |].
      split; [intros _; split; reflexivity |].
      intros product _ _. split; reflexivity.
  - intros n Hn Hb.
    assert (Hp : capMinutes cap = num n) by (now apply jsmul_exact).
    split; [exact Hp |].
    unfold exceedsCap, jsgt. rewrite Hp. unfold num. rewrite jslt_Fin, Qltb_lt.
    now rewrite Hn.
  - intros Hold. rewrite Hold. cbn [negb message]. split; reflexivity.
Qed.

Lemma daily_cap_decides_witness :
  (fst (assignShift "E001" "S002" sampleWorld) = "Ok"
   /\ store (snd (assignShift "E001" "S002" sampleWorld))
      = withAssignment sampleFiles "E001" "S002")
  /\ capMinutes (inject_Z 8) = num 480
  /\ fst (assignShift "E001" "S002" (mkWorld (fractionalFiles cap_5_333) []))
     = "Ok"
  /\ fst (assignShift "E002" "S003" (mkWorld (fractionalFiles cap_4_1) []))
     = "Cannot assign shift: maxDailyHours limit would be exceeded.".
Proof.
  pose proof (daily_cap_decides sampleFiles [] "E001" "S002"
                (mkShift "S002" "2025-03-01" "13:00" "17:00") (inject_Z 8)
                eq_refl eq_refl eq_refl eq_refl eq_refl) as (_ & H1 & H2 & _).
  pose proof (daily_cap_decides (fractionalFiles cap_5_333) []
                "E001" "S002" (mkShift "S002" "2025-03-01" "13:00" "14:20")
                (6004799503160661 # 1125899906842624)
                ltac:(vm_compute; reflexivity) ltac:(vm_compute; reflexivity)
                ltac:(vm_compute; reflexivity) ltac:(vm_compute; reflexivity)
                ltac:(vm_compute; reflexivity)) as (_ & H3 & _).
  pose proof (daily_cap_decides (fractionalFiles cap_4_1) []
                "E002" "S003" (mkShift "S003" "2025-03-01" "09:00" "13:06")
                (2308094809027379 # 562949953421312)
                ltac:(vm_compute; reflexivity) ltac:(vm_compute; reflexivity)
                ltac:(vm_compute; reflexivity) ltac:(vm_compute; reflexivity)
                ltac:(vm_compute; reflexivity)) as (_ & H4 & _).
  split; [| split; [| split]].
  - apply (proj2 (proj2 (proj2 (H1 eq_refl))) (inject_Z 480)).
    + vm_compute. reflexivity.
    + vm_compute. reflexivity.
  - apply (H2 480); [vm_compute; reflexivity | vm_compute; reflexivity].
  - apply (proj1 (proj2 (proj2 (H3 ltac:(vm_compute; reflexivity))))).
    vm_compute. reflexivity.
  - apply (proj1 (proj2 (H4 ltac:(vm_compute; reflexivity)))).
    vm_compute. reflexivity.
Defined.

(** C1, as stated, fails in two ways.  When a shift the employee already
    holds on that date has a time that is not one, the earlier checks pass,
    the minutes of the date with the new shift do not exceed
    maxDailyHours * 60, and the call is rejected all the same.  And the
    product that decides is the double JavaScript computes, not the number
    the configuration writes times 60: with 4.1 hours configured a shift of
    246 minutes, which is 4.1 * 60, is rejected, the double product being
    245.99999999999997; with 5.333333333333333 hours configured 320 minutes
    are accepted, the double product being 320, although 320 exceeds
    5.333333333333333 * 60. *)
Lemma daily_cap_counterexample :
  (employeeExists corruptFiles "E001" = true
   /\ shiftNamed corruptFiles "S002"
      = Some (mkShift "S002" "2025-03-01" "13:00" "17:00")
   /\ pairAssigned corruptFiles "E001" "S002" = false
   /\ configured corruptFiles = num 8
   /\ validDuration (mkShift "S002" "2025-03-01" "13:00" "17:00") = true
   /\ sameDayShifts corruptFiles "E001" "2025-03-01"
      = [mkShift "S001" "2025-03-01" "9am" "13:00"]
   /\ getShiftMinutes "9am" "13:00" = NaN
   /\ exceedsCap
        (totalWith corruptFiles "E001"
                   (mkShift "S002" "2025-03-01" "13:00" "17:00"))
        (inject_Z 8)
      = false
   /\ fst (assignShift "E001" "S002" (mkWorld corruptFiles []))
      = "Invalid shift time format"
   /\ fst (assignShift "E001" "S002" (mkWorld corruptFiles [])) <> "Ok")
  /\ ((totalWith (fractionalFiles cap_4_1) "E002"
                 (mkShift "S003" "2025-03-01" "09:00" "13:06")
       == (41 # 10) * 60)%Q
      /\ configured (fractionalFiles cap_4_1)
         = Fin (2308094809027379 # 562949953421312)
      /\ capMinutes (2308094809027379 # 562949953421312)
         = Fin (8655355533852671 # 35184372088832)
      /\ fst (assignShift "E002" "S003" (mkWorld (fractionalFiles cap_4_1) []))
         = "Cannot assign shift: maxDailyHours limit would be exceeded.")
  /\ (((5333333333333333 # 1000000000000000) * 60
       < totalWith (fractionalFiles cap_5_333) "E001"
                   (mkShift "S002" "2025-03-01" "13:00" "14:20"))%Q
      /\ configured (fractionalFiles cap_5_333)
         = Fin (6004799503160661 # 1125899906842624)
      /\ ((6004799503160661 # 1125899906842624) * 60
          < totalWith (fractionalFiles cap_5_333) "E001"
                      (mkShift "S002" "2025-03-01" "13:00" "14:20"))%Q
      /\ capMinutes (6004799503160661 # 1125899906842624) = num 320
      /\ fst (assignShift "E001" "S002"
                (mkWorld (fractionalFiles cap_5_333) []))
         = "Ok").
Proof.
  repeat split; try (vm_compute; reflexivity). vm_compute. discriminate.
Qed.

(** C2. assignShift answers with the message of the first check that fails,
    the checks being taken in the order employee exists, shift exists, pair
    not yet assigned, config valid, durations valid and positive, daily cap;
    the six failure messages differ from one another and from "Ok".  For an
    employee that does not exist the only call made is the search for the
    employee, and for a shift that does not exist the two searches: no
    duration is computed. *)
Theorem checks_in_order :
  (forall empId shftId w,
     fst (assignShift empId shftId w)
     = message (workflow (store w) empId shftId))
  /\ NoDup (map message (failures ++ [Assigned]))
  /\ (forall empId shftId w,
        employeeExists (store w) empId = false ->
        assignShift empId shftId w
        = ("Employee does not exist",
           mkWorld (store w) (trace w ++ [CallFindEmployee empId])))
  /\ (forall empId shftId w,
        employeeExists (store w) empId = true ->
        shiftNamed (store w) shftId = None ->
        assignShift empId shftId w
        = ("Shift does not exist",
           mkWorld (store w)
                   (trace w ++ [CallFindEmployee empId; CallFindShift shftId])))
  /\ (forall empId shftId w,
        employeeExists (store w) empId = false
        \/ shiftNamed (store w) shftId = None ->
        exists cs,
          trace (snd (assignShift empId shftId w)) = (trace w ++ cs)%list
          /\ existsb isDurationCall cs = false).
Proof.
  assert (H1 : forall empId shftId w,
             employeeExists (store w) empId = false ->
             assignShift empId shftId w
             = ("Employee does not exist",
                mkWorld (store w) (trace w ++ [CallFindEmployee empId]))).
  { intros empId shftId w He.
    destruct (assignShift_run empId shftId w) as (cs & E & Hc & _ & _).
    assert (Hw : workflow (store w) empId shftId = EmployeeMissing).
    { unfold workflow. now rewrite He. }
    rewrite E. unfold storeAfter. rewrite Hw, (Hc Hw). reflexivity. }
  assert (H2 : forall empId shftId w,
             employeeExists (store w) empId = true ->
             shiftNamed (store w) shftId = None ->
             assignShift empId shftId w
             = ("Shift does not exist",
                mkWorld (store w)
                  (trace w ++ [CallFindEmployee empId; CallFindShift shftId]))).
  { intros empId shftId w He Hs.
    destruct (assignShift_run empId shftId w) as (cs & E & _ & Hc & _).
    assert (Hw : workflow (store w) empId shftId = ShiftMissing).
    { unfold workflow. now rewrite He, Hs. }
    rewrite E. unfold storeAfter. rewrite Hw, (Hc Hw). reflexivity. }
  split; [exact assignShift_message |].
  split.
  { simpl. repeat constructor; simpl; intuition discriminate. }
  split; [exact H1 |]. split; [exact H2 |].
  intros empId shftId w H.
  destruct (employeeExists (store w) empId) eqn:He.
  - destruct H as [H | H]; [discriminate |].
    rewrite (H2 _ _ _ He H). eexists. split; reflexivity.
  - rewrite (H1 _ _ _ He). eexists. split; reflexivity.
Qed.

Lemma checks_in_order_witness :
  assignShift "E404" "S001" sampleWorld
  = ("Employee does not exist",
     mkWorld sampleFiles [CallFindEmployee "E404"])
  /\ assignShift "E001" "S404" sampleWorld
     = ("Shift does not exist",
        mkWorld sampleFiles [CallFindEmployee "E001"; CallFindShift "S404"]).
Proof.
  split.
  - apply (proj1 (proj2 (proj2 checks_in_order)) "E404" "S001" sampleWorld).
    reflexivity.
  - apply (proj1 (proj2 (proj2 (proj2 checks_in_order)))
             "E001" "S404" sampleWorld); reflexivity.
Defined.

(** C6. Whatever the input, a call of assignShift that answers anything but
    "Ok" leaves the four files as they were; a call that answers "Ok" has
    appended exactly one record, the pair it was given, to assignments.json
    and changed nothing else; the answer is "Ok" or one of the failure
    messages; and addAssignment is among the calls made exactly when the
    answer is "Ok". *)
Theorem failure_leaves_files (empId shftId : string) (w : world) :
  (fst (assignShift empId shftId w) <> "Ok" ->
   store (snd (assignShift empId shftId w)) = store w)
  /\ (fst (assignShift empId shftId w) = "Ok" ->
      assignmentsFile (store (snd (assignShift empId shftId w)))
      = (assignmentsFile (store w) ++ [mkAssignment empId shftId])%list
      /\ employeesFile (store (snd (assignShift empId shftId w)))
         = employeesFile (store w)
      /\ shiftsFile (store (snd (assignShift empId shftId w)))
         = shiftsFile (store w)
      /\ configMaxDailyHours (store (snd (assignShift empId shftId w)))
         = configMaxDailyHours (store w))
  /\ (fst (assignShift empId shftId w) = "Ok"
      \/ In (fst (assignShift empId shftId w)) (map message failures))
  /\ (exists cs,
        trace (snd (assignShift empId shftId w)) = (trace w ++ cs)%list
        /\ (existsb isWriteCall cs = true
            <-> fst (assignShift empId shftId w) = "Ok")).
Proof.
  destruct (assignShift_run empId shftId w) as (cs & E & _ & _ & Hw).
  rewrite E. cbn [fst snd store trace]. unfold storeAfter.
  split; [| split; [| split]].
  - destruct (workflow (store w) empId shftId); simpl; try reflexivity.
    intros H. now elim H.
  - destruct (workflow (store w) empId shftId); simpl; try discriminate.
    intros _. repeat split.
  - destruct (workflow (store w) empId shftId); simpl; tauto.
  - exists cs. split; [reflexivity |]. rewrite Hw.
    destruct (workflow (store w) empId shftId); simpl; split;
      (reflexivity || discriminate).
Qed.

Lemma failure_leaves_files_witness :
  store (snd (assignShift "E001" "S001" sampleWorld)) = store sampleWorld
  /\ assignmentsFile (store (snd (assignShift "E001" "S002" sampleWorld)))
     = (assignmentsFile (store sampleWorld)
        ++ [mkAssignment "E001" "S002"])%list.
Proof.
  split.
  - apply (proj1 (failure_leaves_files "E001" "S001" sampleWorld)).
    vm_compute. discriminate.
  - apply (proj1 (proj2 (failure_leaves_files "E001" "S002" sampleWorld))).
    vm_compute. reflexivity.
Defined.



End WorkflowClaims.

Section InvariantClaims.

Import Persistence Business Spec Sample.

(** C3, as the code has it.  If every (employeeId, shiftId) pair appears at
    most once in assignments.json before a call of assignShift, the same
    holds afterwards.  A call with a pair that is already there never answers
    "Ok" and adds nothing; its answer is "Employee already assigned to shift"
    when the employee and the shift exist, and otherwise the message of the
    existence check that fails first: "Employee does not exist" without the
    employee, "Shift does not exist" with the employee and without the
    shift.  A call that answers "Ok" has appended a pair that was absent. *)
Theorem pairs_stay_unique (empId shftId : string) (w : world) :
  pairsUnique (store w) ->
  pairsUnique (store (snd (assignShift empId shftId w)))
  /\ (pairAssigned (store w) empId shftId = true ->
      fst (assignShift empId shftId w) <> "Ok"
      /\ store (snd (assignShift empId shftId w)) = store w
      /\ (employeeExists (store w) empId = true ->
          shiftNamed (store w) shftId <> None ->
          fst (assignShift empId shftId w)
          = "Employee already assigned to shift")
      /\ (employeeExists (store w) empId = false ->
          fst (assignShift empId shftId w) = "Employee does not exist")
      /\ (employeeExists (store w) empId = true ->
          shiftNamed (store w) shftId = None ->
          fst (assignShift empId shftId w) = "Shift does not exist"))
  /\ (fst (assignShift empId shftId w) = "Ok" ->
      ~ In (empId, shftId) (map pairOf (assignmentsFile (store w)))
      /\ assignmentsFile (store (snd (assignShift empId shftId w)))
         = (assignmentsFile (store w) ++ [mkAssignment empId shftId])%list).
Proof.
  intros Hu. rewrite assignShift_message, assignShift_store. unfold storeAfter.
  split; [| split].
  - destruct (workflow (store w) empId shftId) eqn:E; try exact Hu.
    apply pairsUnique_withAssignment; [exact Hu |].
    now apply workflow_Assigned_pair.
  - intros Hp. rewrite (workflow_pair_assigned _ _ _ Hp).
    destruct (employeeExists (store w) empId); cbn [negb].
    + destruct (shiftNamed (store w) shftId) as [sh |].
      * split; [discriminate |]. split; [reflexivity |].
        split; [intros _ _; reflexivity |].
        split; discriminate.
      * split; [discriminate |]. split; [reflexivity |].
        split; [intros _ H; now elim H |].
        split; [discriminate | intros _ _; reflexivity].
    + split; [discriminate |]. split; [reflexivity |].
      split; [discriminate |].
      split; [intros _; reflexivity | discriminate].
  - intros H. apply message_Ok in H. rewrite H. split; [| reflexivity].
    intros Hin. apply pairAssigned_In in Hin.
    apply workflow_Assigned_pair in H. congruence.
Qed.

Lemma pairs_stay_unique_witness :
  (pairsUnique (store (snd (assignShift "E001" "S001" sampleWorld)))
   /\ fst (assignShift "E001" "S001" sampleWorld)
      = "Employee already assigned to shift")
  /\ fst (assignShift "E001" "S001" (mkWorld danglingFiles []))
     = "Employee does not exist".
Proof.
  assert (Hu : pairsUnique (store sampleWorld)).
  { unfold pairsUnique. simpl. constructor; [intros [] | constructor]. }
  assert (Hd : pairsUnique (store (mkWorld danglingFiles []))).
  { unfold pairsUnique. simpl. constructor; [intros [] | constructor]. }
  destruct (pairs_stay_unique "E001" "S001" sampleWorld Hu) as (H1 & H2 & _).
  destruct (pairs_stay_unique "E001" "S001" (mkWorld danglingFiles []) Hd)
    as (_ & H4 & _).
  split; [split; [exact H1 |] |].
  - destruct (H2 eq_refl) as (_ & _ & H3 & _).
    apply H3; [reflexivity | discriminate].
  - destruct (H4 eq_refl) as (_ & _ & _ & H5 & _).
    apply H5. reflexivity.
Defined.

(** C3, as stated, fails for an assignment whose employee is no longer in
    employees.json: the pair is there, once, and the answer is that of the
    first check. *)
Lemma already_assigned_counterexample :
  pairsUnique danglingFiles
  /\ pairAssigned danglingFiles "E001" "S001" = true
  /\ fst (assignShift "E001" "S001" (mkWorld danglingFiles []))
     = "Employee does not exist"
  /\ fst (assignShift "E001" "S001" (mkWorld danglingFiles []))
     <> "Employee already assigned to shift".
Proof.
  split; [| split; [reflexivity | split; [reflexivity | discriminate]]].
  unfold pairsUnique. simpl. constructor; [intros [] | constructor].
Qed.

(** C9, as the code has it.  For two texts that toMinutes accepts,
    getShiftMinutes is an integer of [0, 1439], and it is 0 exactly when the
    two denote the same minute of the day; between texts made of two digits,
    a colon and two digits that is exactly when the texts are equal.  When
    the employee and the shift exist and the pair is not yet assigned, a
    shift of length zero is rejected with "Invalid shift time format" and
    nothing is written, just as a shift with a malformed time is; in every
    case the call for such a shift does not answer "Ok". *)
Theorem zero_length_shift_rejected :
  (forall a b,
     toMinutes a <> NaN -> toMinutes b <> NaN ->
     exists z, getShiftMinutes a b = num z /\ 0 <= z <= 1439
               /\ (z = 0 <-> toMinutes a = toMinutes b))
  /\ (forall a b c d a' b' c' d',
        0 <= a <= 9 -> 0 <= b <= 9 -> 0 <= c <= 9 -> 0 <= d <= 9 ->
        0 <= a' <= 9 -> 0 <= b' <= 9 -> 0 <= c' <= 9 -> 0 <= d' <= 9 ->
        toMinutes (clockText a b c d) <> NaN ->
        toMinutes (clockText a' b' c' d') <> NaN ->
        (getShiftMinutes (clockText a b c d) (clockText a' b' c' d') = num 0
         <-> clockText a b c d = clockText a' b' c' d'))
  /\ (forall empId shftId w sh,
        shiftNamed (store w) shftId = Some sh ->
        (toMinutes (startTime sh) = toMinutes (endTime sh)
         \/ toMinutes (startTime sh) = NaN \/ toMinutes (endTime sh) = NaN) ->
        fst (assignShift empId shftId w) <> "Ok"
        /\ store (snd (assignShift empId shftId w)) = store w
        /\ (employeeExists (store w) empId = true ->
            pairAssigned (store w) empId shftId = false ->
            fst (assignShift empId shftId w) = "Invalid shift time format")).
Proof.
  assert (Hzero : forall a b,
             toMinutes a <> NaN -> toMinutes b <> NaN ->
             exists z, getShiftMinutes a b = num z /\ 0 <= z <= 1439
                       /\ (z = 0 <-> toMinutes a = toMinutes b)).
  { intros a b Ha Hb.
    destruct (getShiftMinutes_cases a b)
      as [[[H | H] _] | (s & e & Es & Ee & Hs & He & E)]; try contradiction.
    eexists. split; [exact E |]. rewrite Es, Ee.
    destruct (Z.ltb_spec e s); (split; [lia |]);
      (split; [intros H0; f_equal; lia | intros H0; apply num_inj in H0; lia]). }
  split; [exact Hzero |]. split.
  - intros a b c d a' b' c' d' Ha Hb Hc Hd Ha' Hb' Hc' Hd' Hv Hv'.
    destruct (Hzero _ _ Hv Hv') as (z & Ez & _ & Hz).
    rewrite Ez. split.
    + intros H. apply num_inj in H. apply Hz in H.
      rewrite (toMinutes_clockText a b c d),
        (toMinutes_clockText a' b' c' d') in H by assumption.
      rewrite (toMinutes_clockText a b c d) in Hv by assumption.
      rewrite (toMinutes_clockText a' b' c' d') in Hv' by assumption.
      destruct ((10 * a + b <=? 23) && (10 * c + d <=? 59)) eqn:E;
        [| now elim Hv].
      destruct ((10 * a' + b' <=? 23) && (10 * c' + d' <=? 59)) eqn:E';
        [| now elim Hv'].
      apply num_inj in H.
      apply andb_prop in E as [E1 E2]. apply andb_prop in E' as [E1' E2'].
      apply Z.leb_le in E1, E2, E1', E2'.
      assert (a = a' /\ b = b' /\ c = c' /\ d = d') as (-> & -> & -> & ->) by lia.
      reflexivity.
    + intros H. rewrite H in Ez.
      destruct (Hzero _ _ Hv' Hv') as (z' & Ez' & _ & Hz').
      rewrite Ez' in Ez. apply num_inj in Ez. subst z'.
      f_equal. now apply Hz'.
  - intros empId shftId w sh Hs Hd.
    assert (Hv : validDuration sh = false).
    { unfold validDuration.
      destruct (getShiftMinutes_cases (startTime sh) (endTime sh))
        as [[_ E] | (s & e & Es & Ee & _ & _ & E)]; rewrite E; [reflexivity |].
      destruct Hd as [H | [H | H]];
        [| rewrite Es in H; discriminate H | rewrite Ee in H; discriminate H].
      rewrite Es, Ee in H. apply num_inj in H. subst e.
      rewrite Z.ltb_irrefl, Z.sub_diag. reflexivity. }
    rewrite assignShift_message, assignShift_store. unfold storeAfter.
    rewrite (workflow_invalid_duration _ _ _ _ Hs Hv).
    destruct (employeeExists (store w) empId); cbn [negb].
    + destruct (pairAssigned (store w) empId shftId).
      * split; [discriminate |]. split; [reflexivity |]. discriminate.
      * split; [discriminate |]. split; reflexivity.
    + split; [discriminate |]. split; [reflexivity |]. discriminate.
Qed.

Lemma zero_length_shift_rejected_witness :
  fst (assignShift "E001" "S004" sampleWorld) = "Invalid shift time format"
  /\ store (snd (assignShift "E001" "S004" sampleWorld)) = store sampleWorld.
Proof.
  destruct (proj2 (proj2 zero_length_shift_rejected) "E001" "S004" sampleWorld
              (mkShift "S004" "2025-03-02" "08:00" "08:00") eq_refl
              (or_introl eq_refl)) as (_ & H2 & H3).
  split; [apply H3; reflexivity | exact H2].
Defined.

(** C9, as stated, fails twice: two different texts can denote the same
    minute, and a shift of length zero given with an employee that does not
    exist is rejected by the first check, with its message. *)
Lemma zero_length_counterexample :
  (toMinutes " 9:00" <> NaN /\ toMinutes "09:00" <> NaN
   /\ getShiftMinutes " 9:00" "09:00" = num 0 /\ " 9:00" <> "09:00")
  /\ (shiftNamed sampleFiles "S004"
      = Some (mkShift "S004" "2025-03-02" "08:00" "08:00")
      /\ getShiftMinutes "08:00" "08:00" = num 0
      /\ fst (assignShift "E404" "S004" sampleWorld) = "Employee does not exist"
      /\ fst (assignShift "E404" "S004" sampleWorld)
         <> "Invalid shift time format").
Proof.
  repeat split; try (vm_compute; reflexivity); vm_compute; discriminate.
Qed.

End InvariantClaims.

Section WebClaims.

Import Web Sample.

(** C10, as the code has it.  getScheduleForEmployeeSorted returns a
    permutation of the shifts of the employee, that is of the shifts of the
    collection that an assignment pairs with the employee, in which every
    shift's key, the date followed by a space and the start time, is at most
    the key of every later shift; so does the sort on any array.  When the
    dates of these shifts have one length, as calendar dates do, that is the
    order by date first and start time second. *)
Theorem schedule_sorted :
  (forall a b,
     keyLe a b
     <-> strlt (date b ++ " " ++ startTime b) (date a ++ " " ++ startTime a)
         = false)
  /\ (forall l,
        Permutation (bubbleSort l) l /\ StronglySorted keyLe (bubbleSort l))
  /\ (forall db empId,
        Permutation (getScheduleForEmployeeSorted db empId) (shiftsOf db empId)
        /\ (forall s,
              In s (getScheduleForEmployeeSorted db empId)
              <-> In s (shifts db)
                  /\ In (empId, shiftId s)
                        (map Spec.pairOf (assignments db)))
        /\ List.length (getScheduleForEmployeeSorted db empId)
           = List.length (shiftsOf db empId)
        /\ Permutation (getScheduleForEmployeeSorted db empId)
                       (getEmployeeShifts db empId)
        /\ StronglySorted keyLe (getScheduleForEmployeeSorted db empId)
        /\ Sorted keyLe (getScheduleForEmployeeSorted db empId))
  /\ (forall db empId n,
        Forall (fun s => String.length (date s) = n) (shiftsOf db empId) ->
        StronglySorted dateThenStart (getScheduleForEmployeeSorted db empId)).
Proof.
  split; [intros a b; reflexivity |].
  split; [| split].
  - intros l. split; [apply bubbleSort_perm | apply bubbleSort_sorted].
  - intros db empId. unfold getScheduleForEmployeeSorted.
    assert (Hp : Permutation (bubbleSort (getEmployeeShifts db empId))
                             (shiftsOf db empId)).
    { rewrite <- getEmployeeShifts_shiftsOf. apply bubbleSort_perm. }
    split; [exact Hp |].
    split.
    { intros s. rewrite <- shiftsOf_In. split; intros H.
      - exact (Permutation_in s Hp H).
      - exact (Permutation_in s (Permutation_sym Hp) H). }
    split; [exact (Permutation_length Hp) |].
    split; [apply bubbleSort_perm |].
    split; [apply bubbleSort_sorted |].
    apply StronglySorted_Sorted, bubbleSort_sorted.
  - intros db empId n H. unfold getScheduleForEmployeeSorted.
    rewrite <- getEmployeeShifts_shiftsOf in H.
    now apply bubbleSort_dateThenStart with n.
Qed.

Lemma schedule_sorted_witness :
  StronglySorted dateThenStart (getScheduleForEmployeeSorted sampleDatabase "E001").
Proof.
  apply (proj2 (proj2 (proj2 schedule_sorted)) sampleDatabase "E001" 10%nat).
  repeat constructor.
Defined.

(** C10, as stated, fails for dates of different lengths: with a date
    written with a blank after it the keys are in order and the dates are
    not, the shift that comes first having the later date. *)
Lemma date_order_counterexample :
  getScheduleForEmployeeSorted blankDateDatabase "E001"
  = [mkShift "S002" "2025-03-01 " "08:00" "12:00";
     mkShift "S001" "2025-03-01" "09:00" "13:00"]
  /\ StronglySorted keyLe (getScheduleForEmployeeSorted blankDateDatabase "E001")
  /\ strlt "2025-03-01" "2025-03-01 " = true
  /\ ~ dateThenStart (mkShift "S002" "2025-03-01 " "08:00" "12:00")
                     (mkShift "S001" "2025-03-01" "09:00" "13:00")
  /\ ~ StronglySorted dateThenStart
        (getScheduleForEmployeeSorted blankDateDatabase "E001").
Proof.
  assert (N : ~ dateThenStart (mkShift "S002" "2025-03-01 " "08:00" "12:00")
                              (mkShift "S001" "2025-03-01" "09:00" "13:00")).
  { intros [H | [H _]]; [vm_compute in H | cbn in H]; discriminate. }
  split; [reflexivity |]. split; [apply bubbleSort_sorted |].
  split; [reflexivity |]. split; [exact N |].
  change (getScheduleForEmployeeSorted blankDateDatabase "E001")
    with [mkShift "S002" "2025-03-01 " "08:00" "12:00";
          mkShift "S001" "2025-03-01" "09:00" "13:00"].
  intros H. inversion H as [| ? ? _ Hall]; subst.
  inversion Hall as [| ? ? Hd _]; subst. exact (N Hd).
Qed.

Example sample_schedule_order :
  map shiftId (getScheduleForEmployeeSorted sampleDatabase "E001")
  = ["S001"; "S003"; "S002"].
Proof. reflexivity. Qed.

(** C8.  POST /employees/:id/edit never answers 404: with a valid name and
    phone for an employee that does not exist it updates nothing and
    redirects to the landing page, where GET /employees/:id/edit on the same
    identifier answers 404.  The two validation failures answer with their
    text and the success redirects. *)
Theorem post_edit_missing_employee :
  (forall db empId bodyName bodyPhone body,
     fst (postEdit db empId bodyName bodyPhone) <> Send 404 body)
  /\ findEmployee sampleDatabase "E404" = None
  /\ postEdit sampleDatabase "E404" (FText "Bob") (FText "1234-5678")
     = (RedirectTo 302 "/", sampleDatabase)
  /\ getEdit sampleDatabase "E404" = Send 404 "Employee not found"
  /\ postEdit sampleDatabase "E001" (FText "  ") (FText "1234-5678")
     = (Send 200 "Validation failed: Name must be non-empty", sampleDatabase)
  /\ postEdit sampleDatabase "E001" (FText "Ada") (FText "12345678")
     = (Send 200 "Validation failed: Phone must be 4 digits, a dash, then 4 digits",
        sampleDatabase)
  /\ fst (postEdit sampleDatabase "E001" (FText " Ada L. ") (FText " 1234-5678 "))
     = RedirectTo 302 "/"
  /\ findEmployee
       (snd (postEdit sampleDatabase "E001" (FText " Ada L. ") (FText " 1234-5678 ")))
       "E001"
     = Some (mkEmployee "E001" "Ada L." "1234-5678").
Proof.
  split; [| repeat split].
  intros db empId bodyName bodyPhone body. unfold postEdit.
  destruct (String.length (trim (textOf bodyName)) =? 0)%nat; [discriminate |].
  destruct (negb (phonePattern (trim (textOf bodyPhone)))); discriminate.
Qed.

End WebClaims.

(* ------------------------------------------------------------------ *)
(** ** Further properties of the code *)

Section StoreProperties.

Import Persistence Business Spec Spec2 Sample.

(** X1. findEmployee, findShift and findAssignment leave the files alone and
    return the first record that carries the key; they return nothing exactly
    when no record carries it. *)
Theorem lookups_find_first (w : world) :
  (forall empId,
     store (snd (findEmployee empId w)) = store w
     /\ (fst (findEmployee empId w) = None
         <-> forall x, In x (employeesFile (store w)) -> employeeId x <> empId)
     /\ (forall e, fst (findEmployee empId w) = Some e ->
           employeeId e = empId
           /\ exists before after,
                employeesFile (store w) = (before ++ e :: after)%list
                /\ forall x, In x before -> employeeId x <> empId))
  /\ (forall shftId,
        store (snd (findShift shftId w)) = store w
        /\ (fst (findShift shftId w) = None
            <-> forall x, In x (shiftsFile (store w)) -> shiftId x <> shftId)
        /\ (forall s, fst (findShift shftId w) = Some s ->
              shiftId s = shftId
              /\ exists before after,
                   shiftsFile (store w) = (before ++ s :: after)%list
                   /\ forall x, In x before -> shiftId x <> shftId))
  /\ (forall empId shftId,
        store (snd (findAssignment empId shftId w)) = store w
        /\ (fst (findAssignment empId shftId w) = None
            <-> forall x, In x (assignmentsFile (store w)) ->
                  ~ (asgEmployeeId x = empId /\ asgShiftId x = shftId))
        /\ (forall a, fst (findAssignment empId shftId w) = Some a ->
              In a (assignmentsFile (store w))
              /\ asgEmployeeId a = empId /\ asgShiftId a = shftId)).
Proof.
  split; [| split].
  - intros empId. split; [reflexivity |]. split.
    + apply firstEmployee_None.
    + intros e. apply firstEmployee_Some.
  - intros shftId. split; [reflexivity |]. split.
    + apply firstShift_None.
    + intros s. apply firstShift_Some.
  - intros empId shftId. split; [reflexivity |]. split.
    + apply firstAssignment_None.
    + intros a. apply firstAssignment_Some.
Qed.

Lemma lookups_find_first_witness :
  employeeId (mkEmployee "E001" "Ada" "5550-0101") = "E001"
  /\ exists before after,
       employeesFile (store sampleWorld)
       = (before ++ mkEmployee "E001" "Ada" "5550-0101" :: after)%list
       /\ forall x, In x before -> employeeId x <> "E001".
Proof.
  apply (proj2 (proj2 (proj1 (lookups_find_first sampleWorld) "E001"))).
  reflexivity.
Defined.

(** X2. getEmployeeShifts leaves the files alone and returns, in the order
    of shifts.json, exactly the shifts whose identifier is paired with the
    employee in assignments.json; an employee without assignments gets the
    empty list, and a pair recorded twice yields its shift once. *)
Theorem schedule_is_the_join (empId : string) (w : world) :
  store (snd (getEmployeeShifts empId w)) = store w
  /\ fst (getEmployeeShifts empId w)
     = filter (fun s => pairAssigned (store w) empId (shiftId s))
              (shiftsFile (store w))
  /\ (forall s,
        In s (fst (getEmployeeShifts empId w))
        <-> In s (shiftsFile (store w))
            /\ In (empId, shiftId s) (map pairOf (assignmentsFile (store w))))
  /\ ((forall a, In a (assignmentsFile (store w)) -> asgEmployeeId a <> empId) ->
      fst (getEmployeeShifts empId w) = [])
  /\ (NoDup (shiftsFile (store w)) -> NoDup (fst (getEmployeeShifts empId w))).
Proof.
  cbn [getEmployeeShifts bind logCall readFiles ret fst snd store].
  split; [reflexivity |]. split; [apply joinShifts_filter |]. split; [| split].
  - intros s. rewrite joinShifts_filter, filter_In, pairAssigned_In. tauto.
  - intros H. rewrite joinShifts_filter.
    induction (shiftsFile (store w)) as [| s l IH]; simpl; [reflexivity |].
    destruct (pairAssigned (store w) empId (shiftId s)) eqn:E; [| exact IH].
    apply pairAssigned_In, in_map_iff in E. destruct E as (a & Ea & Ha).
    elim (H a Ha). unfold pairOf in Ea. congruence.
  - intros H. rewrite joinShifts_filter. now apply NoDup_filter.
Qed.

Lemma schedule_is_the_join_witness :
  fst (getEmployeeShifts "E404" sampleWorld) = []
  /\ NoDup (fst (getEmployeeShifts "E001" sampleWorld)).
Proof.
  split.
  - apply (proj1 (proj2 (proj2 (proj2 (schedule_is_the_join "E404" sampleWorld))))).
    intros a [<- | []]. discriminate.
  - apply (proj2 (proj2 (proj2 (proj2 (schedule_is_the_join "E001" sampleWorld))))).
    repeat constructor; simpl; intuition discriminate.
Defined.

(** X3. After a call of assignShift that answers "Ok", findAssignment finds
    the pair, and the same call made again answers "Employee already assigned
    to shift" and writes nothing. *)
Theorem assigned_pair_is_found (empId shftId : string) (w : world) :
  fst (assignShift empId shftId w) = "Ok" ->
  fst (findAssignment empId shftId (snd (assignShift empId shftId w)))
  = Some (mkAssignment empId shftId)
  /\ fst (assignShift empId shftId (snd (assignShift empId shftId w)))
     = "Employee already assigned to shift"
  /\ store (snd (assignShift empId shftId (snd (assignShift empId shftId w))))
     = store (snd (assignShift empId shftId w)).
Proof.
  intros Hok. rewrite assignShift_message in Hok. apply message_Ok in Hok.
  destruct (workflow_Assigned_facts _ _ _ Hok)
    as (sh & cap & He & Hs & Hp & _).
  assert (Hst : store (snd (assignShift empId shftId w))
                = withAssignment (store w) empId shftId).
  { rewrite assignShift_store. unfold storeAfter. now rewrite Hok. }
  assert (Hw : workflow (withAssignment (store w) empId shftId) empId shftId
               = AlreadyAssigned).
  { rewrite workflow_pair_assigned.
    - unfold employeeExists, shiftNamed, withAssignment in *.
      cbn [employeesFile shiftsFile]. now rewrite He, Hs.
    - rewrite pairAssigned_withAssignment, !String.eqb_refl.
      apply orb_true_r. }
  split; [| split].
  - cbn [findAssignment bind logCall readFiles ret fst snd store].
    rewrite Hst. cbn [withAssignment assignmentsFile].
    apply firstAssignment_last.
    rewrite pairAssigned_first in Hp.
    now destruct (firstAssignment (assignmentsFile (store w)) empId shftId).
  - now rewrite assignShift_message, Hst, Hw.
  - rewrite assignShift_store, Hst. unfold storeAfter. now rewrite Hw.
Qed.

Lemma assigned_pair_is_found_witness :
  fst (assignShift "E001" "S002" (snd (assignShift "E001" "S002" sampleWorld)))
  = "Employee already assigned to shift".
Proof.
  apply (assigned_pair_is_found "E001" "S002" sampleWorld). reflexivity.
Defined.

(** X4. After a call of assignShift that answers "Ok" the shift is in the
    employee's schedule, every shift that was in it still is, every shift
    now in it was there before or carries the identifier just assigned, and
    the schedule of every other employee is what it was. *)
Theorem assigned_shift_is_scheduled (empId shftId : string) (w : world) :
  fst (assignShift empId shftId w) = "Ok" ->
  (exists sh,
     fst (findShift shftId w) = Some sh
     /\ In sh (joinShifts (store (snd (assignShift empId shftId w))) empId))
  /\ (forall s,
        In s (joinShifts (store (snd (assignShift empId shftId w))) empId)
        <-> In s (joinShifts (store w) empId)
            \/ (In s (shiftsFile (store w)) /\ shiftId s = shftId))
  /\ (forall other,
        other <> empId ->
        joinShifts (store (snd (assignShift empId shftId w))) other
        = joinShifts (store w) other).
Proof.
  intros Hok. rewrite assignShift_message in Hok. apply message_Ok in Hok.
  destruct (workflow_Assigned_facts _ _ _ Hok)
    as (sh & cap & He & Hs & Hp & _).
  rewrite assignShift_store. unfold storeAfter. rewrite Hok.
  assert (Hin : forall s e,
             In s (joinShifts (withAssignment (store w) empId shftId) e)
             <-> In s (shiftsFile (store w))
                 /\ (pairAssigned (store w) e (shiftId s) = true
                     \/ (empId = e /\ shftId = shiftId s))).
  { intros s e. rewrite joinShifts_filter, filter_In.
    rewrite pairAssigned_withAssignment, orb_true_iff, andb_true_iff.
    rewrite !String.eqb_eq. reflexivity. }
  split; [| split].
  - exists sh. rewrite shiftNamed_first in Hs.
    split; [exact Hs |]. apply Hin.
    destruct (firstShift_Some _ _ _ Hs) as (Hid & before & after & E & _).
    split; [rewrite E; apply in_or_app; right; now left |]. right. auto.
  - intros s. rewrite Hin, joinShifts_filter, filter_In. intuition congruence.
  - intros other Hne. rewrite !joinShifts_filter.
    apply filter_ext. intros s. rewrite pairAssigned_withAssignment.
    destruct (String.eqb_spec empId other) as [E | _]; [congruence |].
    apply orb_false_r.
Qed.

Lemma assigned_shift_is_scheduled_witness :
  exists sh,
    fst (findShift "S002" sampleWorld) = Some sh
    /\ In sh (joinShifts (store (snd (assignShift "E001" "S002" sampleWorld)))
                         "E001").
Proof.
  apply (proj1 (assigned_shift_is_scheduled "E001" "S002" sampleWorld eq_refl)).
Defined.

(** X5. When the shifts of shifts.json have identifiers of their own, a call
    of assignShift keeps the daily cap: if on no date the minutes of the
    shifts assigned to an employee exceeded maxDailyHours * 60, the product
    as JavaScript computes it, before the call, they do not after it,
    whatever the call answers. *)
Theorem cap_stays_respected (empId shftId : string) (w : world) :
  shiftIdsUnique (store w) ->
  capRespected (store w) ->
  capRespected (store (snd (assignShift empId shftId w))).
Proof.
  intros Hu Hc. rewrite assignShift_store. unfold storeAfter.
  destruct (workflow (store w) empId shftId) eqn:Hok; try exact Hc.
  destruct (workflow_Assigned_facts _ _ _ Hok)
    as (sh & cap & He & Hs & Hp & Hcap & _ & _ & Htot).
  intros e day cap' Hcap'.
  change (configured (withAssignment (store w) empId shftId))
    with (configured (store w)) in Hcap'.
  rewrite Hcap in Hcap'. injection Hcap' as <-.
  rewrite (exceedsCap_comp _ _ _
             (scheduledMinutes_withAssignment _ _ _ sh e day Hu Hs Hp)).
  destruct (String.eqb_spec empId e) as [<- | _]; cbn [andb].
  - destruct (String.eqb_spec (date sh) day) as [<- | _].
    + exact Htot.
    + rewrite (exceedsCap_comp _ _ _ (Qplus_0_r _)). now apply Hc.
  - rewrite (exceedsCap_comp _ _ _ (Qplus_0_r _)). now apply Hc.
Qed.

Lemma cap_stays_respected_witness :
  capRespected
    (store (snd (assignShift "E001" "S001"
                   (mkWorld Sample2.unassignedFiles [])))).
Proof.
  apply (cap_stays_respected "E001" "S001" (mkWorld Sample2.unassignedFiles [])).
  - unfold shiftIdsUnique. simpl.
    repeat constructor; simpl; intuition discriminate.
  - intros e day cap Hcap.
    rewrite scheduledMinutes_unassigned by reflexivity.
    vm_compute in Hcap. injection Hcap as <-. vm_compute. reflexivity.
Defined.

End StoreProperties.

Section TimeProperties.

Import Web Spec2 Page Sample.

(** X6. For two times that toMinutes accepts and that are not the same
    minute, the shift from the first to the second and the shift back add up
    to the 1440 minutes of a day, each lasting between 1 and 1439 minutes. *)
Theorem shift_and_reverse_fill_the_day (a b : string) :
  toMinutes a <> NaN -> toMinutes b <> NaN -> toMinutes a <> toMinutes b ->
  exists z z',
    getShiftMinutes a b = num z /\ getShiftMinutes b a = num z'
    /\ z + z' = 1440 /\ 1 <= z <= 1439 /\ 1 <= z' <= 1439.
Proof.
  intros Ha Hb Hab.
  destruct (toMinutes_range a) as [E | (s & Es & Hs)]; [contradiction |].
  destruct (toMinutes_range b) as [E | (e & Ee & He)]; [contradiction |].
  assert (Hne : s <> e) by (intros ->; apply Hab; congruence).
  rewrite (getShiftMinutes_num a b s e Es Ee),
    (getShiftMinutes_num b a e s Ee Es).
  do 2 eexists. split; [reflexivity |]. split; [reflexivity |].
  destruct (Z.ltb_spec e s), (Z.ltb_spec s e); lia.
Qed.

Lemma shift_and_reverse_fill_the_day_witness :
  exists z z',
    getShiftMinutes "22:00" "02:30" = num z
    /\ getShiftMinutes "02:30" "22:00" = num z'
    /\ z + z' = 1440 /\ 1 <= z <= 1439 /\ 1 <= z' <= 1439.
Proof.
  apply (shift_and_reverse_fill_the_day "22:00" "02:30");
    vm_compute; discriminate.
Defined.

(** X7. In the list getScheduleForEmployeeSorted returns, of two shifts on
    the same date whose start times are written as two digits, a colon and
    two digits and are accepted by toMinutes, the one listed first does not
    start later in the day. *)
Theorem same_day_rows_by_minutes (db : database) (empId : string) :
  StronglySorted sameDayByMinutes (getScheduleForEmployeeSorted db empId).
Proof.
  unfold getScheduleForEmployeeSorted.
  apply StronglySorted_within with (R := keyLe); [| apply bubbleSort_sorted].
  intros x y _ _. apply keyLe_sameDayByMinutes.
Qed.

(** X8. GET /employees/:id answers 404 "Employee not found" exactly when no
    employee has the identifier.  Otherwise it renders the employee found
    with the sorted schedule, one row per shift in that order, and a row
    whose start time is written as two digits, a colon and two digits and is
    accepted by toMinutes is flagged as morning exactly when it starts
    before minute 720, that is before noon. *)
Theorem employee_page_flags_mornings (db : database) (empId : string) :
  (findEmployee db empId = None
   <-> getEmployeePage db empId = PageSend 404 "Employee not found")
  /\ (forall e,
        findEmployee db empId = Some e ->
        exists rows,
          getEmployeePage db empId = PageRender 200 "employee" e rows
          /\ map rowShift rows = getScheduleForEmployeeSorted db empId
          /\ forall row m,
               In row rows ->
               twoDigitTime (startTime (rowShift row)) ->
               toMinutes (startTime (rowShift row)) = num m ->
               (isMorning row = true <-> m < 720)).
Proof.
  unfold getEmployeePage. split.
  - destruct (findEmployee db empId); split; congruence.
  - intros e ->. eexists. split; [reflexivity |]. split.
    + rewrite map_map. cbn [rowShift]. apply map_id.
    + intros row m Hin (a & b & c & d & Ha & Hb & Hc & Hd & Et) Hm.
      apply in_map_iff in Hin. destruct Hin as (s & <- & _).
      cbn [rowShift isMorning] in *. rewrite Et in *.
      change "12:00" with (clockText 1 2 0 0).
      rewrite (strlt_minutes a b c d 1 2 0 0 m 720)
        by (assumption || lia || reflexivity).
      apply Z.ltb_lt.
Qed.

Lemma employee_page_flags_mornings_witness :
  exists rows,
    getEmployeePage sampleDatabase "E001"
    = PageRender 200 "employee" (mkEmployee "E001" "Ada" "5550-0101") rows
    /\ map rowShift rows = getScheduleForEmployeeSorted sampleDatabase "E001"
    /\ forall row m,
         In row rows ->
         twoDigitTime (startTime (rowShift row)) ->
         toMinutes (startTime (rowShift row)) = num m ->
         (isMorning row = true <-> m < 720).
Proof.
  apply (proj2 (employee_page_flags_mornings sampleDatabase "E001")).
  reflexivity.
Defined.

End TimeProperties.

Section StaffProperties.

Import Persistence Web Staff Spec Spec2 Sample.





End StaffProperties.

Section EditProperties.

Import Persistence Web Staff Spec2 Sample.



(** X12. POST /employees/:id/edit answers in one of three ways, decided by
    the name first: the name message, database unchanged, exactly when the
    name is absent, repeated, or white space only; the phone message,
    database unchanged, exactly when the name is not blank and the trimmed
    phone is not four digits, a dash and four digits; and otherwise the
    redirect to "/", after updateEmployee with the trimmed name and phone. *)
Theorem edit_answers (db : database) (empId : string) (bodyName bodyPhone : field) :
  (allWhiteSpace (textOf bodyName) = true
   <-> postEdit db empId bodyName bodyPhone
       = (Send 200 "Validation failed: Name must be non-empty", db))
  /\ (allWhiteSpace (textOf bodyName) = false
      /\ ~ phoneShape (trim (textOf bodyPhone))
      <-> postEdit db empId bodyName bodyPhone
          = (Send 200 "Validation failed: Phone must be 4 digits, a dash, then 4 digits",
             db))
  /\ (allWhiteSpace (textOf bodyName) = false
      /\ phoneShape (trim (textOf bodyPhone))
      <-> postEdit db empId bodyName bodyPhone
          = (RedirectTo 302 "/",
             updateEmployee db empId (trim (textOf bodyName))
                            (trim (textOf bodyPhone)))).
Proof.
  unfold postEdit.
  destruct (String.length (trim (textOf bodyName)) =? 0)%nat eqn:El.
  - apply length_zero_empty, trim_blank in El. rewrite El.
    split; [tauto |]. split; split; (discriminate || intros [H _]; discriminate).
  - assert (Hn : allWhiteSpace (textOf bodyName) = false).
    { destruct (allWhiteSpace (textOf bodyName)) eqn:E; [| reflexivity].
      apply trim_blank, length_zero_empty in E. congruence. }
    rewrite Hn.
    destruct (phonePattern (trim (textOf bodyPhone))) eqn:Ep; cbn [negb].
    + assert (Hs : phoneShape (trim (textOf bodyPhone)))
        by now apply phonePattern_spec.
      split; [split; discriminate |]. split.
      * split; [intros [_ H]; contradiction | discriminate].
      * split; [reflexivity | now split].
    + assert (Hs : ~ phoneShape (trim (textOf bodyPhone))).
      { intros H. apply phonePattern_spec in H. congruence. }
      split; [split; discriminate |]. split.
      * split; [reflexivity | now split].
      * split; [intros [_ H]; contradiction | discriminate].
Qed.

Lemma edit_answers_witness :
  postEdit sampleDatabase "E001" (FList ["Ada"; "Bob"]) (FText "1234-5678")
  = (Send 200 "Validation failed: Name must be non-empty", sampleDatabase).
Proof.
  apply (proj1 (proj1 (edit_answers sampleDatabase "E001"
                         (FList ["Ada"; "Bob"]) (FText "1234-5678")))).
  reflexivity.
Defined.

(** X13. When POST /employees/:id/edit redirects for an employee that
    exists, GET /employees/:id/edit on the same identifier then renders the
    form with the identifier and the trimmed name and phone just posted, and
    for any other identifier it answers what it answered before. *)
Theorem edit_then_show (db : database) (empId : string) (bodyName bodyPhone : field)
  (e : employee) :
  findEmployee db empId = Some e ->
  fst (postEdit db empId bodyName bodyPhone) = RedirectTo 302 "/" ->
  getEdit (snd (postEdit db empId bodyName bodyPhone)) empId
  = Render 200 "editEmployee"
           (mkEmployee empId (trim (textOf bodyName)) (trim (textOf bodyPhone)))
  /\ forall other,
       other <> empId ->
       getEdit (snd (postEdit db empId bodyName bodyPhone)) other
       = getEdit db other.
Proof.
  intros He. unfold postEdit.
  destruct (String.length (trim (textOf bodyName)) =? 0)%nat; [discriminate |].
  destruct (phonePattern (trim (textOf bodyPhone))); cbn [negb fst snd];
    [| discriminate].
  intros _. unfold getEdit, findEmployee, updateEmployee in *.
  cbn [employees]. split.
  - rewrite updateOne_find, String.eqb_refl, He.
    now rewrite (proj1 (firstEmployee_Some _ _ _ He)).
  - intros other Hne. rewrite updateOne_find.
    now destruct (String.eqb_spec other empId).
Qed.

Lemma edit_then_show_witness :
  getEdit (snd (postEdit sampleDatabase "E001" (FText " Ada L. ")
                         (FText " 1234-5678 ")))
          "E001"
  = Render 200 "editEmployee" (mkEmployee "E001" "Ada L." "1234-5678").
Proof.
  apply (proj1 (edit_then_show sampleDatabase "E001" (FText " Ada L. ")
                  (FText " 1234-5678 ") (mkEmployee "E001" "Ada" "5550-0101")
                  eq_refl eq_refl)).
Defined.

(** X14. The sort of getScheduleForEmployeeSorted is stable: the shifts that
    share a key, date and start time alike, come out in the order they came
    in. *)
Theorem sort_is_stable (db : database) (empId key : string) :
  filter (fun s => String.eqb (sortKey s) key)
         (getScheduleForEmployeeSorted db empId)
  = filter (fun s => String.eqb (sortKey s) key) (getEmployeeShifts db empId).
Proof.
  unfold getScheduleForEmployeeSorted.
  rewrite bubbleSort_passes. apply passes_stable.
Qed.

(** X15. An array that is already in the order of the keys comes back from
    the sort unchanged, so sorting twice is sorting once. *)
Theorem sorted_array_is_left_alone (l : list shift) :
  (StronglySorted keyLe l -> bubbleSort l = l)
  /\ bubbleSort (bubbleSort l) = bubbleSort l.
Proof.
  assert (H : forall l', StronglySorted keyLe l' -> bubbleSort l' = l').
  { intros l' Hs. rewrite bubbleSort_passes. now apply passes_sorted. }
  split; [apply H | apply H, bubbleSort_sorted].
Qed.

Lemma sorted_array_is_left_alone_witness :
  bubbleSort [mkShift "S001" "2025-03-01" "09:00" "13:00";
              mkShift "S002" "2025-03-02" "13:00" "17:00"]
  = [mkShift "S001" "2025-03-01" "09:00" "13:00";
     mkShift "S002" "2025-03-02" "13:00" "17:00"].
Proof.
  apply (proj1 (sorted_array_is_left_alone _)).
  repeat constructor.
Defined.

(** X16. On the same employees, shifts and assignments the two persistence
    layers return the same schedule: the early return of the MongoDB one for
    an employee without assignments gives what the join gives. *)
Theorem two_stores_one_schedule (es : list employee) (ss : list shift)
  (asg : list assignment) (cfg : jsvalue) (empId : string) :
  getEmployeeShifts (mkDatabase es ss asg) empId
  = joinShifts (mkFiles es ss asg cfg) empId.
Proof.
  unfold getEmployeeShifts, joinShifts. cbn [assignments shifts assignmentsFile
                                            shiftsFile].
  destruct (map asgShiftId
              (filter (fun a => String.eqb (asgEmployeeId a) empId) asg))
    as [| i ids]; [| reflexivity].
  cbn [List.length Nat.eqb existsb].
  induction ss as [| s ss IH]; [reflexivity | exact IH].
Qed.

End EditProperties.

Section ConsoleAndConnection.

Import Staff Console Db Spec2 Sample.

(** X17. showEmployeeTable prints the two heading lines and then one line
    per employee in the order of the file.  A line is as long as the padded
    identifier, the padded name and the phone together, nothing being cut;
    for an identifier of at most 13 and a name of at most 20 code units the
    identifier starts the line, the name is at offset 13 and the phone at
    offset 33, the offsets of "Name" and "Phone" in the heading. *)
Theorem table_columns_line_up :
  (forall fs,
     List.length (showEmployeeTable fs)
     = (2 + List.length (employeesFile fs))%nat
     /\ skipn 2 (showEmployeeTable fs) = map tableRow (employeesFile fs))
  /\ (forall emp,
        String.length (tableRow emp)
        = (Nat.max 13 (String.length (employeeId emp))
           + Nat.max 20 (String.length (name emp))
           + String.length (phone emp))%nat)
  /\ (forall emp,
        (String.length (employeeId emp) <= 13)%nat ->
        (String.length (name emp) <= 20)%nat ->
        String.substring 0 (String.length (employeeId emp)) (tableRow emp)
        = employeeId emp
        /\ String.substring 13 (String.length (name emp)) (tableRow emp)
           = name emp
        /\ String.substring 33 (String.length (phone emp)) (tableRow emp)
           = phone emp)
  /\ String.substring 13 4 tableHeader = "Name"
  /\ String.substring 33 5 tableHeader = "Phone".
Proof.
  split; [| split; [| split; [| split; reflexivity]]].
  - intros fs. unfold showEmployeeTable, listEmployees, getAllEmployees.
    cbn [List.length skipn]. now rewrite length_map.
  - intros emp. unfold tableRow.
    rewrite !str_length_app, !length_padEnd. lia.
  - intros emp Hid Hname. unfold tableRow.
    assert (L1 : String.length (padEnd 13 (employeeId emp)) = 13%nat)
      by (rewrite length_padEnd; lia).
    assert (L2 : String.length (padEnd 20 (name emp)) = 20%nat)
      by (rewrite length_padEnd; lia).
    split; [apply padEnd_front |]. split.
    + rewrite <- L1 at 1. rewrite substring_behind. apply padEnd_front.
    + replace 33%nat
        with (String.length (padEnd 13 (employeeId emp) ++ padEnd 20 (name emp)))
        by (rewrite str_length_app, L1, L2; reflexivity).
      rewrite <- str_app_assoc, substring_behind. apply substring_all.
Qed.

Lemma table_columns_line_up_witness :
  String.substring 0 4 (tableRow (mkEmployee "E001" "Ada" "5550-0101")) = "E001"
  /\ String.substring 13 3 (tableRow (mkEmployee "E001" "Ada" "5550-0101")) = "Ada"
  /\ String.substring 33 9 (tableRow (mkEmployee "E001" "Ada" "5550-0101"))
     = "5550-0101".
Proof.
  apply (proj1 (proj2 (proj2 table_columns_line_up))
           (mkEmployee "E001" "Ada" "5550-0101")); simpl; lia.
Defined.

(** X18. The connection of db.js: a database handle is never kept without
    the client it came from, whatever getDb and closeDb do; once a handle is
    kept, getDb returns it for any connection string and connects to nothing;
    closeDb closes the client kept, if any, and forgets both, so that the
    next getDb connects anew and a second closeDb does nothing. *)
Theorem connection_is_cached :
  handleKept initial
  /\ (forall st uri connects,
        handleKept st ->
        handleKept (snd (getDb uri connects st)) /\ handleKept (closeDb st))
  /\ (forall st uri,
        db st = None ->
        fst (getDb uri true st) = Some uri
        /\ (forall uri' connects',
              getDb uri' connects' (snd (getDb uri true st))
              = (Some uri, snd (getDb uri true st)))
        /\ (forall uri',
              getDb uri' true (closeDb (snd (getDb uri true st)))
              = (Some uri',
                 mkConnection (Some uri') (Some uri')
                   (events st ++ [Connected uri; Closed uri; Connected uri']))))
  /\ (forall st, closeDb (closeDb st) = closeDb st)
  /\ (forall st uri,
        db st = None ->
        fst (getDb uri false st) = None
        /\ db (snd (getDb uri false st)) = None
        /\ client (snd (getDb uri false st)) = Some uri).
Proof.
  split; [intros h; discriminate |]. split; [| split; [| split]].
  - intros st uri connects Hk. split.
    + unfold getDb. destruct (db st) as [h |] eqn:E; cbn [snd]; [exact Hk |].
      destruct connects; intros h Hh; cbn [db client] in *;
        [exact Hh | discriminate].
    + unfold closeDb. destruct (client st) eqn:Ec; [| exact Hk].
      intros h Hh. discriminate.
  - intros st uri Hn. unfold getDb, closeDb. rewrite Hn. cbn.
    split; [reflexivity |]. split; [reflexivity |].
    intros uri'. rewrite <- !app_assoc. reflexivity.
  - intros st. unfold closeDb. destruct (client st) eqn:E; cbn; [reflexivity |].
    now rewrite E.
  - intros st uri Hn. unfold getDb. rewrite Hn. now cbn.
Qed.

Lemma connection_is_cached_witness :
  getDb "mongodb://b" false (snd (getDb "mongodb://a" true initial))
  = (Some "mongodb://a", snd (getDb "mongodb://a" true initial)).
Proof.
  apply (proj1 (proj2 (proj1 (proj2 (proj2 connection_is_cached))
                         initial "mongodb://a" eq_refl))).
Defined.

End ConsoleAndConnection.
